(** * Library management: the business rules of [services/library_service.py]

    A shallow embedding of the service functions of the library
    management system (catalogue, borrowing, returning, late fees, fee
    payment and refund) and the properties of them that the specification
    states.

    The service functions talk to three collaborators: the storage layer
    ([database.py]), the system clock ([datetime.now()]) and the payment
    gateway ([services/payment_service.py]).  A service function is
    embedded as a finite tree of collaborator calls ([Prog]); a tree is run
    against a handler that answers the calls over a world of its own
    choosing.  The theorems quantify over every handler and every world,
    that is over every behaviour of the collaborators. *)

From Stdlib Require Import ZArith QArith Qminmax Bool List Lia.
From Stdlib Require Import String Ascii Decimal DecimalString.
Import ListNotations.

Local Open Scope string_scope.
Local Open Scope Z_scope.

(** ** Python values *)

Module Py.

(** *** Strings

    A [str] is modelled as a Rocq [string]: a sequence of characters with
    code points below 256.  The character classes are those of Python on
    that range. *)

Definition code (c : ascii) : Z := Z.of_nat (nat_of_ascii c).

(** [str.isspace] on one character: TAB..CR, FS..US, space, NEL, NBSP. *)
Definition isspace (c : ascii) : bool :=
  let n := code c in
  ((9 <=? n) && (n <=? 13)) || ((28 <=? n) && (n <=? 32))
  || (n =? 133) || (n =? 160).

(** [str.isdigit] on one character: 0..9 and the superscripts 1, 2, 3. *)
Definition isdigit_char (c : ascii) : bool :=
  let n := code c in
  ((48 <=? n) && (n <=? 57)) || (n =? 178) || (n =? 179) || (n =? 185).

Fixpoint all_chars (p : ascii -> bool) (s : string) : bool :=
  match s with
  | EmptyString => true
  | String c s' => p c && all_chars p s'
  end.

(** Truth value of a string: [not s] is [negb (truthy s)]. *)
Definition truthy (s : string) : bool :=
  match s with
  | EmptyString => false
  | String _ _ => true
  end.

(** [s.isdigit()]: at least one character and all of them digits. *)
Definition isdigit (s : string) : bool := truthy s && all_chars isdigit_char s.

(** [len(s)] *)
Definition len (s : string) : Z := Z.of_nat (String.length s).

Fixpoint lstrip (s : string) : string :=
  match s with
  | EmptyString => EmptyString
  | String c s' => if isspace c then lstrip s' else s
  end.

Fixpoint rstrip (s : string) : string :=
  match s with
  | EmptyString => EmptyString
  | String c s' =>
      match rstrip s' with
      | EmptyString => if isspace c then EmptyString else String c EmptyString
      | r => String c r
      end
  end.

(** [s.strip()] *)
Definition strip (s : string) : string := rstrip (lstrip s).

(** [s.startswith(p)] *)
Definition startswith (s p : string) : bool := String.prefix p s.

(** [needle in s] *)
Fixpoint contains (needle s : string) : bool :=
  String.prefix needle s ||
  match s with
  | EmptyString => false
  | String _ s' => contains needle s'
  end.

(** The double quote character, for the messages that quote a title. *)
Definition dquote : string := String (ascii_of_nat 34) EmptyString.

(** [str(n)] for an [int]. *)
Definition str_int (n : Z) : string := NilZero.string_of_int (Z.to_int n).

(** Two decimal digits, zero padded: the [%02d] of the format codes. *)
Definition two_digits (n : Z) : string :=
  if n <? 10 then "0" ++ str_int n else str_int n.

(** *** Floats

    A [float] is modelled as the rational it denotes.  The fee arithmetic
    only produces multiples of one half of moderate size, which binary
    floating point represents and computes exactly. *)

(** Nearest integer, ties to even: the rounding of [round] and of the
    [f] format code. *)
Definition round_half_even (q : Q) : Z :=
  let n := Qnum q in
  let d := Zpos (Qden q) in
  let fl := n / d in
  let r2 := 2 * (n mod d) in
  if r2 <? d then fl
  else if d <? r2 then fl + 1
  else if Z.even fl then fl else fl + 1.

(** [round(x, 2)] *)
Definition round2 (x : Q) : Q := (inject_Z (round_half_even (x * 100)) / 100)%Q.

(** [f'{x:.2f}'] *)
Definition format_2f (x : Q) : string :=
  let c := round_half_even (x * 100) in
  let a := Z.abs c in
  (if c <? 0 then "-" else EmptyString) ++ str_int (a / 100) ++ "." ++ two_digits (a mod 100).

(** *** Dates and times

    A naive [datetime] is the number of microseconds since
    1970-01-01T00:00:00, a [timedelta] a number of microseconds. *)

Definition datetime := Z.
Definition timedelta := Z.

Definition us_per_day : Z := 86400 * 1000000.

(** [timedelta(days=n)] *)
Definition timedelta_days (n : Z) : timedelta := n * us_per_day.

(** [td.days]: a timedelta is normalised with a non-negative remainder, so
    its [days] field is the floor of the duration in days. *)
Definition days (td : timedelta) : Z := td / us_per_day.

(** Year, month and day of a day number counted from 1970-01-01, in the
    proleptic Gregorian calendar. *)
Definition civil_from_days (z : Z) : Z * Z * Z :=
  let z := z + 719468 in
  let era := z / 146097 in
  let doe := z - era * 146097 in
  let yoe := (doe - doe / 1460 + doe / 36524 - doe / 146096) / 365 in
  let doy := doe - (365 * yoe + yoe / 4 - yoe / 100) in
  let mp := (5 * doy + 2) / 153 in
  let d := doy - (153 * mp + 2) / 5 + 1 in
  let m := if mp <? 10 then mp + 3 else mp - 9 in
  let y := yoe + era * 400 in
  (if m <=? 2 then y + 1 else y, m, d).

(** [dt.strftime("%Y-%m-%d")] *)
Definition strftime_ymd (dt : datetime) : string :=
  let '(y, m, d) := civil_from_days (dt / us_per_day) in
  str_int y ++ "-" ++ two_digits m ++ "-" ++ two_digits d.

(** [str.lower] on one character: A..Z and the accented capitals of the
    range, each 32 below its small letter. *)
Definition lower_char (c : ascii) : ascii :=
  let n := code c in
  if ((65 <=? n) && (n <=? 90)) || ((192 <=? n) && (n <=? 222) && negb (n =? 215))
  then ascii_of_nat (nat_of_ascii c + 32)
  else c.

(** [s.lower()] *)
Fixpoint lower (s : string) : string :=
  match s with
  | EmptyString => EmptyString
  | String c s' => String (lower_char c) (lower s')
  end.

End Py.

Import Py.

(** ** Data model *)

(** A row of the book table, as [get_book_by_id] and [get_book_by_isbn]
    return it. *)
Module Book.
Record t : Type := make {
  id : Z;
  title : string;
  author : string;
  isbn : string;
  total_copies : Z;
  available_copies : Z
}.
End Book.

(** An entry of [get_patron_borrowed_books]: an outstanding borrow record
    of the patron, joined with the book it is for. *)
Module Borrowed.
Record t : Type := make {
  book_id : Z;
  title : string;
  author : string;
  borrow_date : datetime;
  due_date : datetime;
  is_overdue : bool
}.
End Borrowed.

(** The dictionary [calculate_late_fee_for_book] returns; each of its
    return statements builds the same three keys. *)
Record LateFee : Type := {
  fee_amount : Q;
  days_overdue : Z;
  status : string
}.

(** ** Collaborators and programs *)

(** What a gateway method can raise: an instance of [Exception], whose
    [str(e)] returns a text or raises in turn, or something that is not an
    instance of [Exception] ([KeyboardInterrupt], [SystemExit],
    [GeneratorExit]). *)
Inductive Exn : Type :=
| Exception (text : string)
| ExceptionStrRaises (raised : Exn)
| BaseException (name : string).

(** What a call of a gateway method does: it returns or it raises. *)
Inductive Outcome (A : Type) : Type :=
| Returns (a : A)
| Raises (e : Exn).
Arguments Returns {A} a.
Arguments Raises {A} e.

(** A payment gateway object. *)
Definition Gateway : Type := nat.

(** The calls the service makes to its collaborators, indexed by the type
    of the answer; the names and arguments are those of the call sites.
    The storage functions and the clock answer with a value (a falsy one on
    failure); the two gateway methods may raise instead. *)
Inductive Call : Type -> Type :=
| get_book_by_id (book_id : Z) : Call (option Book.t)
| get_book_by_isbn (isbn : string) : Call (option Book.t)
| get_patron_borrow_count (patron_id : string) : Call Z
| get_patron_borrowed_books (patron_id : string) : Call (list Borrowed.t)
| insert_book (title author isbn : string) (total_copies available_copies : Z) : Call bool
| insert_borrow_record (patron_id : string) (book_id : Z) (borrow_date due_date : datetime) : Call bool
| update_book_availability (book_id : Z) (change : Z) : Call bool
| update_borrow_record_return_date (patron_id : string) (book_id : Z) (return_date : datetime) : Call bool
| datetime_now : Call datetime
| PaymentGateway_new : Call Gateway
| process_payment (g : Gateway) (patron_id : string) (amount : Q) (description : string)
    : Call (Outcome (bool * string * string))
| refund_payment (g : Gateway) (transaction_id : string) (amount : Q)
    : Call (Outcome (bool * string)).

(** A service function: it returns, raises, or makes a call and goes on
    with the answer. *)
Inductive Prog (A : Type) : Type :=
| Ret (a : A)
| Throw (e : Exn)
| Vis {X : Type} (c : Call X) (k : X -> Prog A).
Arguments Ret {A} a.
Arguments Throw {A} e.
Arguments Vis {A X} c k.

Fixpoint bind {A B : Type} (p : Prog A) (f : A -> Prog B) : Prog B :=
  match p with
  | Ret a => f a
  | Throw e => Throw e
  | Vis c k => Vis c (fun x => bind (k x) f)
  end.

Notation "x <- p ;; q" := (bind p (fun x => q))
  (at level 61, p at next level, right associativity).

(** A call of a storage function or of the clock. *)
Definition call {X : Type} (c : Call X) : Prog X := Vis c Ret.

(** A call of a gateway method: an exception it raises propagates. *)
Definition call_raising {X : Type} (c : Call (Outcome X)) : Prog X :=
  Vis c (fun o => match o with
                  | Returns x => Ret x
                  | Raises e => Throw e
                  end).

(** [try: body  except Exception as e: handler(e)]: what is not an
    instance of [Exception] passes through. *)
Fixpoint try_except {A : Type} (body : Prog A) (handler : Exn -> Prog A) : Prog A :=
  match body with
  | Ret a => Ret a
  | Throw (BaseException name) => Throw (BaseException name)
  | Throw e => handler e
  | Vis c k => Vis c (fun x => try_except (k x) handler)
  end.

(** [str(e)], which may raise. *)
Definition str_exception (e : Exn) : Prog string :=
  match e with
  | Exception text => Ret text
  | ExceptionStrRaises raised => Throw raised
  | BaseException name => Ret name
  end.

(** What gets past [except Exception as e: ... str(e) ...]: an exception
    that is not an instance of [Exception], or the one [str(e)] raises. *)
Definition escaping {A : Type} (o : Outcome A) : option Exn :=
  match o with
  | Returns _ => None
  | Raises (Exception _) => None
  | Raises (ExceptionStrRaises raised) => Some raised
  | Raises (BaseException name) => Some (BaseException name)
  end.

(** *** Running a program *)

(** The collaborators: an answer to every call, over a world [W]. *)
Definition Handler (W : Type) : Type := forall X : Type, Call X -> W -> X * W.

Inductive AnyCall : Type :=
| Called {X : Type} (c : Call X).

(** The result of a run: what the function returned or raised, the world
    it left, and the calls it made, in order. *)
Record Run (W A : Type) : Type := {
  value : Outcome A;
  world : W;
  calls : list AnyCall
}.
Arguments value {W A} r.
Arguments world {W A} r.
Arguments calls {W A} r.

Fixpoint run {W A : Type} (h : Handler W) (p : Prog A) (w : W) : Run W A :=
  match p with
  | Ret a => {| value := Returns a; world := w; calls := [] |}
  | Throw e => {| value := Raises e; world := w; calls := [] |}
  | Vis c k =>
      let (x, w') := h _ c w in
      let r := run h (k x) w' in
      {| value := value r; world := world r; calls := Called c :: calls r |}
  end.

(** The answer of the handler to one storage or clock call. *)
Definition answer {W X : Type} (h : Handler W) (c : Call X) (w : W) : X := fst (h X c w).
Definition after {W X : Type} (h : Handler W) (c : Call X) (w : W) : W := snd (h X c w).

(** The gateway in use when the caller passed [payment_gateway] and the
    service is in world [w], and the world once that gateway is at hand. *)
Definition gateway_in {W : Type} (h : Handler W) (w : W)
    (payment_gateway : option Gateway) : Gateway :=
  match payment_gateway with
  | Some g => g
  | None => answer h PaymentGateway_new w
  end.

Definition world_with_gateway {W : Type} (h : Handler W) (w : W)
    (payment_gateway : option Gateway) : W :=
  match payment_gateway with
  | Some _ => w
  | None => after h PaymentGateway_new w
  end.

(** A program without [Throw] in it. *)
Fixpoint throw_free {A : Type} (p : Prog A) : Prop :=
  match p with
  | Ret _ => True
  | Throw _ => False
  | Vis c k => forall x, throw_free (k x)
  end.

(** Classification of the calls of a run. *)
Definition is_process_payment (a : AnyCall) : bool :=
  match a with
  | Called c => match c with process_payment _ _ _ _ => true | _ => false end
  end.

Definition is_refund_payment (a : AnyCall) : bool :=
  match a with
  | Called c => match c with refund_payment _ _ _ => true | _ => false end
  end.

(** Any contact with the payment service: a method call or the
    construction of a gateway. *)
Definition is_gateway_call (a : AnyCall) : bool :=
  match a with
  | Called c =>
      match c with
      | process_payment _ _ _ _ | refund_payment _ _ _ | PaymentGateway_new => true
      | _ => false
      end
  end.

Definition is_insert_book (a : AnyCall) : bool :=
  match a with
  | Called c => match c with insert_book _ _ _ _ _ => true | _ => false end
  end.

Definition count_calls (f : AnyCall -> bool) (l : list AnyCall) : nat :=
  List.length (filter f l).

(** ** The service functions *)

(** The guard [not patron_id or not patron_id.isdigit() or len(patron_id) != 6]
    that opens the borrow, return and payment functions. *)
Definition invalid_patron_id (patron_id : string) : bool :=
  negb (truthy patron_id) || negb (isdigit patron_id) || negb (len patron_id =? 6).

(** [add_book_to_catalog(title, author, isbn, total_copies)].  The test
    [isinstance(total_copies, int)] holds of every [Z]. *)
Definition add_book_to_catalog (title author isbn : string) (total_copies : Z)
  : Prog (bool * string) :=
  if negb (truthy title) || negb (truthy (strip title)) then
    Ret (false, "Title is required.")
  else if 200 <? len (strip title) then
    Ret (false, "Title must be less than 200 characters.")
  else if negb (truthy author) || negb (truthy (strip author)) then
    Ret (false, "Author is required.")
  else if 100 <? len (strip author) then
    Ret (false, "Author must be less than 100 characters.")
  else if negb (len isbn =? 13) then
    Ret (false, "ISBN must be exactly 13 digits.")
  else if total_copies <=? 0 then
    Ret (false, "Total copies must be a positive integer.")
  else
    existing <- call (get_book_by_isbn isbn) ;;
    match existing with
    | Some _ => Ret (false, "A book with this ISBN already exists.")
    | None =>
        success <- call (insert_book (strip title) (strip author) isbn
                                     total_copies total_copies) ;;
        if success : bool then
          Ret (true, "Book " ++ dquote ++ strip title ++ dquote
                       ++ " has been successfully added to the catalog.")
        else
          Ret (false, "Database error occurred while adding the book.")
    end.

(** [borrow_book_by_patron(patron_id, book_id)] *)
Definition borrow_book_by_patron (patron_id : string) (book_id : Z)
  : Prog (bool * string) :=
  if invalid_patron_id patron_id then
    Ret (false, "Invalid patron ID. Must be exactly 6 digits.")
  else
    book <- call (get_book_by_id book_id) ;;
    match book with
    | None => Ret (false, "Book not found.")
    | Some book =>
        if Book.available_copies book <=? 0 then
          Ret (false, "This book is currently not available.")
        else
          current_borrowed <- call (get_patron_borrow_count patron_id) ;;
          if 5 <? current_borrowed then
            Ret (false, "You have reached the maximum borrowing limit of 5 books.")
          else
            borrow_date <- call datetime_now ;;
            let due_date := borrow_date + timedelta_days 14 in
            borrow_success <- call (insert_borrow_record patron_id book_id
                                                         borrow_date due_date) ;;
            if negb borrow_success then
              Ret (false, "Database error occurred while creating borrow record.")
            else
              availability_success <- call (update_book_availability book_id (-1)) ;;
              if negb availability_success then
                Ret (false, "Database error occurred while updating book availability.")
              else
                Ret (true, "Successfully borrowed " ++ dquote ++ Book.title book
                             ++ dquote ++ ". Due date: " ++ strftime_ymd due_date ++ ".")
    end.

(** [return_book_by_patron(patron_id, book_id)] *)
Definition return_book_by_patron (patron_id : string) (book_id : Z)
  : Prog (bool * string) :=
  if invalid_patron_id patron_id then
    Ret (false, "INvalid patron ID. Must be exactly 6 digits.")
  else
    book <- call (get_book_by_id book_id) ;;
    match book with
    | None => Ret (false, "Book not found.")
    | Some book =>
        borrowed_books <- call (get_patron_borrowed_books patron_id) ;;
        let book_borrowed :=
          existsb (fun b => Borrowed.book_id b =? book_id) borrowed_books in
        if negb book_borrowed then
          Ret (false, "No active borrow record found for this book and patron.")
        else
          return_date <- call datetime_now ;;
          return_success <- call (update_borrow_record_return_date
                                    patron_id book_id return_date) ;;
          availability_success <- call (update_book_availability book_id 4) ;;
          if return_success && availability_success then
            Ret (true, "Successfully returned " ++ dquote ++ Book.title book
                         ++ dquote ++ ".")
          else
            Ret (false, "Database error occurred during return process.")
    end.

(** The fee of a number of overdue days, before the f-string and the
    final [round]: the tier computation and the cap of
    [calculate_late_fee_for_book]. *)
Definition tiered_fee (days_overdue : Z) : Q :=
  if days_overdue <=? 7 then inject_Z days_overdue * 0.50
  else (7 * 0.50) + (inject_Z (days_overdue - 7) * 1.00).

(** [calculate_late_fee_for_book(patron_id, book_id)] *)
Definition calculate_late_fee_for_book (patron_id : string) (book_id : Z)
  : Prog LateFee :=
  borrowed_books <- call (get_patron_borrowed_books patron_id) ;;
  match find (fun b => Borrowed.book_id b =? book_id) borrowed_books with
  | None =>
      Ret {| fee_amount := 0.00; days_overdue := 0;
             status := "No active borrow record found" |}
  | Some borrow_record =>
      let due_date := Borrowed.due_date borrow_record in
      current_date <- call datetime_now ;;
      if current_date <=? due_date then
        Ret {| fee_amount := 0.00; days_overdue := 0;
               status := "No late fees - book not overdue" |}
      else
        let overdue := days (current_date - due_date) in
        let fee := Qmin (tiered_fee overdue) 15.00 in
        let status_message :=
          "Late fee: $" ++ format_2f fee ++ " for " ++ str_int overdue
            ++ " days overdue" in
        let status_message :=
          if Qle_bool 15.00 fee then status_message ++ " (maximum fee applied)"
          else status_message in
        Ret {| fee_amount := round2 fee; days_overdue := overdue;
               status := status_message |}
  end.

(** [payment_gateway = PaymentGateway()] when the caller passed [None]. *)
Definition gateway_or_default (payment_gateway : option Gateway) : Prog Gateway :=
  match payment_gateway with
  | Some g => Ret g
  | None => call PaymentGateway_new
  end.

(** [pay_late_fees(patron_id, book_id, payment_gateway)].  The guard
    [not fee_info or 'fee_amount' not in fee_info] is false of every
    dictionary [calculate_late_fee_for_book] builds, hence of every
    [LateFee]. *)
Definition pay_late_fees (patron_id : string) (book_id : Z)
    (payment_gateway : option Gateway) : Prog (bool * string * option string) :=
  if invalid_patron_id patron_id then
    Ret (false, "Invalid patron ID. Must be exactly 6 digits.", None)
  else
    fee_info <- calculate_late_fee_for_book patron_id book_id ;;
    let fee := fee_amount fee_info in
    if Qle_bool fee 0 then
      Ret (false, "No late fees to pay for this book.", None)
    else
      book <- call (get_book_by_id book_id) ;;
      match book with
      | None => Ret (false, "Book not found.", None)
      | Some book =>
          payment_gateway <- gateway_or_default payment_gateway ;;
          try_except
            (r <- call_raising
                    (process_payment payment_gateway patron_id fee
                       ("Late fees for '" ++ Book.title book ++ "'")) ;;
             let '(success, transaction_id, message) := r in
             if success : bool then
               Ret (true, "Payment successful! " ++ message, Some transaction_id)
             else
               Ret (false, "Payment failed: " ++ message, None))
            (fun e =>
               text <- str_exception e ;;
               Ret (false, "Payment processing error: " ++ text, None))
      end.

(** [refund_late_fee_payment(transaction_id, amount, payment_gateway)] *)
Definition refund_late_fee_payment (transaction_id : string) (amount : Q)
    (payment_gateway : option Gateway) : Prog (bool * string) :=
  if negb (truthy transaction_id) || negb (startswith transaction_id "txn_") then
    Ret (false, "Invalid transaction ID.")
  else if Qle_bool amount 0 then
    Ret (false, "Refund amount must be greater than 0.")
  else if negb (Qle_bool amount 15.00) then
    Ret (false, "Refund amount exceeds maximum late fee.")
  else
    payment_gateway <- gateway_or_default payment_gateway ;;
    try_except
      (r <- call_raising (refund_payment payment_gateway transaction_id amount) ;;
       let '(success, message) := r in
       if success : bool then Ret (true, message)
       else Ret (false, "Refund failed: " ++ message))
      (fun e =>
         text <- str_exception e ;;
         Ret (false, "Refund processing error: " ++ text)).

(** ** Collaborators to run against *)

Module Store.

(** Modelled from the spec: the borrow table of [database.py], which is
    not part of the sources at hand.  A row is a BorrowRecord of the data
    model; it is outstanding while [return_date] is unset. *)
Record BorrowRecord : Type := {
  patron_id : string;
  book_id : Z;
  borrow_date : datetime;
  due_date : datetime;
  return_date : option datetime
}.

(** Modelled from the spec: [database.py] and [services/payment_service.py]
    are not part of the sources at hand.  The world below follows the data
    model and the collaborator interfaces of the specification: books and
    borrow records, a record being outstanding while its return date is
    unset; storage writes that answer [True] or, on a storage failure,
    [False] and change nothing; a gateway whose two methods return or
    raise.  [write_results] scripts the results of the coming storage
    writes (a write past the end of the script succeeds), and the two
    outcomes script the gateway. *)
Record World : Type := {
  books : list Book.t;
  records : list BorrowRecord;
  clock : datetime;
  write_results : list bool;
  payment_outcome : Outcome (bool * string * string);
  refund_outcome : Outcome (bool * string)
}.

Definition outstanding (patron : string) (r : BorrowRecord) : bool :=
  (patron_id r =? patron)%string &&
  match return_date r with None => true | Some _ => false end.

Definition book_by_id (w : World) (b : Z) : option Book.t :=
  find (fun k => Book.id k =? b) (books w).

Definition book_by_isbn (w : World) (i : string) : option Book.t :=
  find (fun k => (Book.isbn k =? i)%string) (books w).

Definition borrowed_entry (w : World) (r : BorrowRecord) : Borrowed.t :=
  let k := book_by_id w (book_id r) in
  {| Borrowed.book_id := book_id r;
     Borrowed.title := match k with Some k => Book.title k | None => EmptyString end;
     Borrowed.author := match k with Some k => Book.author k | None => EmptyString end;
     Borrowed.borrow_date := borrow_date r;
     Borrowed.due_date := due_date r;
     Borrowed.is_overdue := due_date r <? clock w |}.

Definition borrowed_books (w : World) (patron : string) : list Borrowed.t :=
  map (borrowed_entry w) (filter (outstanding patron) (records w)).

(** A storage write: the next scripted result decides whether the change
    [f] is applied. *)
Definition write (f : World -> World) (w : World) : bool * World :=
  let (ok, rest) :=
    match write_results w with
    | [] => (true, [])
    | ok :: rest => (ok, rest)
    end in
  let w' := if ok then f w else w in
  (ok, {| books := books w'; records := records w'; clock := clock w';
          write_results := rest;
          payment_outcome := payment_outcome w';
          refund_outcome := refund_outcome w' |}).

Definition set_books (bs : list Book.t) (w : World) : World :=
  {| books := bs; records := records w; clock := clock w;
     write_results := write_results w;
     payment_outcome := payment_outcome w; refund_outcome := refund_outcome w |}.

Definition set_records (rs : list BorrowRecord) (w : World) : World :=
  {| books := books w; records := rs; clock := clock w;
     write_results := write_results w;
     payment_outcome := payment_outcome w; refund_outcome := refund_outcome w |}.

Definition add_book (t a i : string) (total available : Z) (w : World) : World :=
  set_books (books w ++ [Book.make (1 + Z.of_nat (List.length (books w))) t a i total available]) w.

Definition add_record (p : string) (b : Z) (borrowed due : datetime) (w : World) : World :=
  set_records (records w ++ [{| patron_id := p; book_id := b; borrow_date := borrowed;
                                 due_date := due; return_date := None |}]) w.

Definition change_availability (b change : Z) (w : World) : World :=
  set_books
    (map (fun k => if Book.id k =? b
                   then Book.make (Book.id k) (Book.title k) (Book.author k) (Book.isbn k)
                                  (Book.total_copies k) (Book.available_copies k + change)
                   else k)
         (books w)) w.

Definition close_record (p : string) (b : Z) (returned : datetime) (w : World) : World :=
  set_records
    (map (fun r => if outstanding p r && (book_id r =? b)
                   then {| patron_id := patron_id r; book_id := book_id r;
                           borrow_date := borrow_date r; due_date := due_date r;
                           return_date := Some returned |}
                   else r)
         (records w)) w.

(** Modelled from the spec: the functions of [database.py], the clock
    and the methods of [PaymentGateway], none of them part of the sources
    at hand, as the collaborator interfaces of the specification describe
    them. *)
Definition handler : Handler World :=
  fun X c =>
    match c in Call X return World -> X * World with
    | get_book_by_id b => fun w => (book_by_id w b, w)
    | get_book_by_isbn i => fun w => (book_by_isbn w i, w)
    | get_patron_borrow_count p => fun w =>
        (Z.of_nat (List.length (filter (outstanding p) (records w))), w)
    | get_patron_borrowed_books p => fun w => (borrowed_books w p, w)
    | insert_book t a i total available => write (add_book t a i total available)
    | insert_borrow_record p b borrowed due => write (add_record p b borrowed due)
    | update_book_availability b change => write (change_availability b change)
    | update_borrow_record_return_date p b returned => write (close_record p b returned)
    | datetime_now => fun w => (clock w, w)
    | PaymentGateway_new => fun w => (0%nat, w)
    | process_payment _ _ _ _ => fun w => (payment_outcome w, w)
    | refund_payment _ _ _ => fun w => (refund_outcome w, w)
    end.

(** The sample catalogue entry of the tests: book 4, three copies, two of
    them on the shelf. *)
Definition hunger_games : Book.t :=
  Book.make 4 "The Hunger Games" "Suzanne Collins" "9780439023528" 3 2.

(** 2024-01-15T00:00:00 *)
Definition jan15 : datetime := 19737 * us_per_day.

(** Patron 123456 holds book 4, due on 15 January 2024; [now] is the
    clock. *)
Definition library (now : datetime) : World :=
  {| books := [hunger_games];
     records := [{| patron_id := "123456"; book_id := 4;
                    borrow_date := jan15 - timedelta_days 14;
                    due_date := jan15; return_date := None |}];
     clock := now;
     write_results := [];
     payment_outcome := Returns (true, "txn_abc123", "Payment processed successfully");
     refund_outcome := Returns (true, "Refund processed successfully") |}.

Definition with_writes (results : list bool) (w : World) : World :=
  {| books := books w; records := records w; clock := clock w;
     write_results := results;
     payment_outcome := payment_outcome w; refund_outcome := refund_outcome w |}.

Definition with_gateway (pay : Outcome (bool * string * string))
    (refund : Outcome (bool * string)) (w : World) : World :=
  {| books := books w; records := records w; clock := clock w;
     write_results := write_results w;
     payment_outcome := pay; refund_outcome := refund |}.

(** Patron 123456 holds [n] further books, 101, 102, ... *)
Fixpoint with_loans (n : nat) (w : World) : World :=
  match n with
  | O => w
  | S n' =>
      add_record "123456" (100 + Z.of_nat n) (clock w) (clock w + timedelta_days 14)
                 (with_loans n' w)
  end.

(** The same library at another time. *)
Definition at_time (now : datetime) (w : World) : World :=
  {| books := books w; records := records w; clock := now;
     write_results := write_results w;
     payment_outcome := payment_outcome w; refund_outcome := refund_outcome w |}.

End Store.

(** ** The search and the status report *)

(** [search_books_in_catalog] makes one storage call, [get_all_books()],
    and only when the search term is not blank: it answers at once, or
    reads all books and answers from them. *)
Inductive Lookup (A : Type) : Type :=
| Answer (a : A)
| AllBooks (k : list Book.t -> A).
Arguments Answer {A} a.
Arguments AllBooks {A} k.

(** What the lookup returns when the storage holds [all_books], and
    whether it asks for them. *)
Definition result {A : Type} (p : Lookup A) (all_books : list Book.t) : A :=
  match p with
  | Answer a => a
  | AllBooks k => k all_books
  end.

Definition reads_catalog {A : Type} (p : Lookup A) : bool :=
  match p with
  | Answer _ => false
  | AllBooks _ => true
  end.

(** [search_books_in_catalog(search_term, search_type)] *)
Definition search_books_in_catalog (search_term search_type : string)
  : Lookup (list Book.t) :=
  if negb (truthy search_term) || negb (truthy (strip search_term)) then
    Answer []
  else
    let search_term := lower (strip search_term) in
    AllBooks (fun all_books =>
      if (search_type =? "title")%string then
        filter (fun book => contains search_term (lower (Book.title book))) all_books
      else if (search_type =? "author")%string then
        filter (fun book => contains search_term (lower (Book.author book))) all_books
      else if (search_type =? "isbn")%string then
        filter (fun book => contains search_term (Book.isbn book)) all_books
      else
        []).

(** An entry of [overdue_books] in the status report. *)
Module Overdue.
Record t : Type := make {
  book_title : string;
  days_overdue : Z;
  fee : Q
}.
End Overdue.

(** An entry of [current_borrows] in the status report. *)
Module Current.
Record t : Type := make {
  title : string;
  author : string;
  borrow_date : string;
  due_date : string;
  is_overdue : bool
}.
End Current.

(** The dictionary of a status report. *)
Module Report.
Record t : Type := make {
  patron_id : string;
  total_books_borrowed : Z;
  borrowing_limit_remaining : Z;
  total_late_fees : Q;
  overdue_books : list Overdue.t;
  current_borrows : list Current.t
}.
End Report.

(** What [get_patron_status_report] returns: the dictionary with the one
    key [error], or a report. *)
Inductive StatusReport : Type :=
| StatusError (error : string)
| Status (report : Report.t).

(** The [for book in borrowed_books] loop of the status report, from the
    running [total_fees] and [overdue_books]. *)
Fixpoint collect_fees (patron_id : string) (borrowed_books : list Borrowed.t)
    (total_fees : Q) (overdue_books : list Overdue.t) : Prog (Q * list Overdue.t) :=
  match borrowed_books with
  | [] => Ret (total_fees, overdue_books)
  | book :: rest =>
      fee_calc <- calculate_late_fee_for_book patron_id (Borrowed.book_id book) ;;
      if negb (Qle_bool (fee_amount fee_calc) 0) then
        collect_fees patron_id rest (total_fees + fee_amount fee_calc)
          (overdue_books ++ [Overdue.make (Borrowed.title book)
                                          (days_overdue fee_calc)
                                          (fee_amount fee_calc)])
      else
        collect_fees patron_id rest total_fees overdue_books
  end.

(** [get_patron_status_report(patron_id)] *)
Definition get_patron_status_report (patron_id : string) : Prog StatusReport :=
  if invalid_patron_id patron_id then
    Ret (StatusError "Invalid patron ID")
  else
    borrowed_books <- call (get_patron_borrowed_books patron_id) ;;
    let total_borrowed := Z.of_nat (List.length borrowed_books) in
    fees <- collect_fees patron_id borrowed_books 0.00 [] ;;
    let '(total_fees, overdue_books) := fees in
    Ret (Status
           (Report.make patron_id total_borrowed (5 - total_borrowed)
              (round2 total_fees) overdue_books
              (map (fun book =>
                      Current.make (Borrowed.title book) (Borrowed.author book)
                        (strftime_ymd (Borrowed.borrow_date book))
                        (strftime_ymd (Borrowed.due_date book))
                        (Borrowed.is_overdue book))
                   borrowed_books))).

(** ** Further classifications of calls *)

(** A storage write. *)
Definition is_write (a : AnyCall) : bool :=
  match a with
  | Called c =>
      match c with
      | insert_book _ _ _ _ _ | insert_borrow_record _ _ _ _
      | update_book_availability _ _ | update_borrow_record_return_date _ _ _ => true
      | _ => false
      end
  end.

Definition is_new_gateway (a : AnyCall) : bool :=
  match a with
  | Called c => match c with PaymentGateway_new => true | _ => false end
  end.

(** A read of a patron's borrowed books. *)
Definition is_read_borrowed (a : AnyCall) : bool :=
  match a with
  | Called c => match c with get_patron_borrowed_books _ => true | _ => false end
  end.

(** The fees of a list of overdue entries, added up. *)
Definition sum_fees (l : list Overdue.t) : Q :=
  fold_right (fun o total => Overdue.fee o + total)%Q 0%Q l.

(** The amount of a charge, for a call of [process_payment]. *)
Definition charged_amount (a : AnyCall) : option Q :=
  match a with
  | Called c => match c with process_payment _ _ amount _ => Some amount | _ => None end
  end.

(** ** The validation order of the specification

    The checks of the catalogue entry in the order the specification
    lists them, each with the reason the service gives for it: title
    non-empty and at most 200 characters, author non-empty and at most 100
    characters, ISBN of exactly 13 characters, a positive number of copies,
    ISBN not registered yet.  The result is the reason of the first check
    that fails, if any does. *)
Definition first_failed_check (title author isbn : string) (total_copies : Z)
    (registered : bool) : option string :=
  if negb (truthy title) then Some "Title is required."
  else if 200 <? len title then Some "Title must be less than 200 characters."
  else if negb (truthy author) then Some "Author is required."
  else if 100 <? len author then Some "Author must be less than 100 characters."
  else if negb (len isbn =? 13) then Some "ISBN must be exactly 13 digits."
  else if total_copies <=? 0 then Some "Total copies must be a positive integer."
  else if registered then Some "A book with this ISBN already exists."
  else None.

Definition is_some {A : Type} (o : option A) : bool :=
  match o with
  | Some _ => true
  | None => false
  end.

(** ** The patron id of the specification

    A patron is identified by a card id of exactly six digits, 0 to 9.
    The guard of the service asks [str.isdigit] instead, which also accepts
    the superscript digits. *)
Definition decimal_digit (c : ascii) : bool :=
  let n := code c in (48 <=? n) && (n <=? 57).


Definition six_digits (s : string) : bool :=
  (len s =? 6) && all_chars decimal_digit s.

(** The card id 12345 followed by a superscript two. *)
Definition superscript_id : string := "12345" ++ String (ascii_of_nat 178) EmptyString.

(** ** The fee in half dollars

    The fee of [d] overdue days as a whole number of half dollars: one a
    day for the first seven days, two a day after that, thirty at most. *)
Definition half_dollars (d : Z) : Z := Z.min (if d <=? 7 then d else 2 * d - 7) 30.

(** ** Properties *)

(** *** Runs *)

Section Runs.

Context {W : Type} (h : Handler W).

Lemma run_vis {A X : Type} (c : Call X) (k : X -> Prog A) (w : W) :
  run h (Vis c k) w =
  {| value := value (run h (k (answer h c w)) (after h c w));
     world := world (run h (k (answer h c w)) (after h c w));
     calls := Called c :: calls (run h (k (answer h c w)) (after h c w)) |}.
Proof.
  unfold answer, after. simpl. destruct (h X c w) as [x w']. reflexivity.
Qed.

Lemma run_call {X : Type} (c : Call X) (w : W) :
  run h (call c) w =
  {| value := Returns (answer h c w); world := after h c w; calls := [Called c] |}.
Proof.
  unfold call. rewrite run_vis. reflexivity.
Qed.

(** Running [p] and then [f]: the calls of [p] come first, and an
    exception of [p] ends the run. *)
Lemma run_bind {A B : Type} (p : Prog A) (f : A -> Prog B) (w : W) :
  run h (bind p f) w =
  match value (run h p w) with
  | Returns a =>
      {| value := value (run h (f a) (world (run h p w)));
         world := world (run h (f a) (world (run h p w)));
         calls := calls (run h p w) ++ calls (run h (f a) (world (run h p w))) |}
  | Raises e =>
      {| value := Raises e; world := world (run h p w); calls := calls (run h p w) |}
  end.
Proof.
  revert w. induction p as [a | e | X c k IH]; intros w.
  - simpl. destruct (run h (f a) w); reflexivity.
  - reflexivity.
  - simpl. destruct (h X c w) as [x w']. rewrite IH.
    destruct (value (run h (k x) w')); reflexivity.
Qed.

(** A program without [Throw] never raises. *)
Lemma throw_free_returns {A : Type} (p : Prog A) (w : W) :
  throw_free p -> exists a, value (run h p w) = Returns a.
Proof.
  revert w. induction p as [a | e | X c k IH]; intros w F.
  - exists a. reflexivity.
  - destruct F.
  - rewrite run_vis. simpl. apply IH, F.
Qed.

End Runs.

(** *** Arithmetic of the fee *)

Lemma append_assoc (a b c : string) : (a ++ b) ++ c = a ++ (b ++ c).
Proof.
  induction a as [| x a IH]; simpl; [reflexivity | rewrite IH; reflexivity].
Qed.

Ltac q_arith :=
  unfold Qeq, Qle, Qlt, Qdiv, Qinv, Qplus, Qmult, inject_Z;
  cbn [Qnum Qden]; rewrite ?Pos2Z.inj_mul; lia.

(** A rational that denotes an integer rounds to it. *)
Lemma round_half_even_integer (q : Q) (k : Z) :
  q == inject_Z k -> round_half_even q = k.
Proof.
  unfold Qeq, round_half_even. destruct q as [n d]. simpl. intros E.
  rewrite Z.mul_1_r in E. subst n.
  rewrite Z.div_mul, Z.mod_mul by discriminate.
  reflexivity.
Qed.

Lemma capped_fee_half_dollars (d : Z) :
  Qmin (tiered_fee d) 15.00 == inject_Z (half_dollars d) * 0.50.
Proof.
  unfold half_dollars, tiered_fee.
  destruct (Z.leb_spec d 7) as [Hd | Hd].
  - rewrite Z.min_l by lia. apply Q.min_l. q_arith.
  - destruct (Z.le_gt_cases (2 * d - 7) 30) as [Hc | Hc].
    + rewrite Z.min_l by lia. rewrite Q.min_l; q_arith.
    + rewrite Z.min_r by lia. rewrite Q.min_r; [reflexivity | q_arith].
Qed.

(** The final [round(fee_amount, 2)] changes nothing: the fee is a whole
    number of half dollars. *)
Lemma round2_capped_fee (d : Z) :
  round2 (Qmin (tiered_fee d) 15.00) == Qmin (tiered_fee d) 15.00.
Proof.
  unfold round2.
  rewrite (round_half_even_integer _ (50 * half_dollars d)).
  - rewrite capped_fee_half_dollars. q_arith.
  - rewrite capped_fee_half_dollars. q_arith.
Qed.

Lemma days_floor (td d : Z) :
  d * us_per_day <= td < (d + 1) * us_per_day -> days td = d.
Proof.
  intros Hd. unfold days. symmetry.
  apply (Z.div_unique td us_per_day d (td - d * us_per_day)).
  - left. unfold us_per_day in *. lia.
  - lia.
Qed.

Lemma days_nonneg (td : Z) : 0 <= td -> 0 <= days td.
Proof.
  intros Htd. unfold days. apply Z.div_pos; [exact Htd | reflexivity].
Qed.

(** *** The fee calculator *)

Section LateFee.

Context {W : Type} (h : Handler W).

Variable w : W.
Variable patron_id : string.
Variable book_id : Z.

(** The patron's outstanding borrows as the storage reports them, and the
    time the clock shows when it is read after that. *)
Let borrowed := answer h (get_patron_borrowed_books patron_id) w.
Let w1 := after h (get_patron_borrowed_books patron_id) w.
Let now := answer h datetime_now w1.

Lemma run_late_fee_no_record :
  find (fun b => Borrowed.book_id b =? book_id) borrowed = None ->
  run h (calculate_late_fee_for_book patron_id book_id) w =
  {| value := Returns {| fee_amount := 0.00; days_overdue := 0;
                         status := "No active borrow record found" |};
     world := w1;
     calls := [Called (get_patron_borrowed_books patron_id)] |}.
Proof.
  intros F. unfold calculate_late_fee_for_book, call. cbn [bind].
  rewrite run_vis. fold borrowed w1. rewrite F. reflexivity.
Qed.

Lemma run_late_fee_not_overdue (record : Borrowed.t) :
  find (fun b => Borrowed.book_id b =? book_id) borrowed = Some record ->
  now <= Borrowed.due_date record ->
  run h (calculate_late_fee_for_book patron_id book_id) w =
  {| value := Returns {| fee_amount := 0.00; days_overdue := 0;
                         status := "No late fees - book not overdue" |};
     world := after h datetime_now w1;
     calls := [Called (get_patron_borrowed_books patron_id); Called datetime_now] |}.
Proof.
  intros F L. unfold calculate_late_fee_for_book, call. cbn [bind].
  rewrite run_vis. fold borrowed w1. rewrite F. cbn [bind].
  rewrite run_vis. fold now.
  apply Z.leb_le in L. rewrite L. reflexivity.
Qed.

Lemma run_late_fee_overdue (record : Borrowed.t) :
  find (fun b => Borrowed.book_id b =? book_id) borrowed = Some record ->
  Borrowed.due_date record < now ->
  let d := days (now - Borrowed.due_date record) in
  let fee := Qmin (tiered_fee d) 15.00 in
  run h (calculate_late_fee_for_book patron_id book_id) w =
  {| value :=
       Returns {| fee_amount := round2 fee; days_overdue := d;
                  status :=
                    if Qle_bool 15.00 fee
                    then ("Late fee: $" ++ format_2f fee ++ " for " ++ str_int d
                            ++ " days overdue") ++ " (maximum fee applied)"
                    else "Late fee: $" ++ format_2f fee ++ " for " ++ str_int d
                           ++ " days overdue" |};
     world := after h datetime_now w1;
     calls := [Called (get_patron_borrowed_books patron_id); Called datetime_now] |}.
Proof.
  intros F L d fee. unfold calculate_late_fee_for_book, call. cbn [bind].
  rewrite run_vis. fold borrowed w1. rewrite F. cbn [bind].
  rewrite run_vis. fold now.
  apply Z.leb_gt in L. rewrite L. reflexivity.
Qed.

(** The fee calculator always returns an assessment, and it only reads the
    borrow records and the clock. *)
Lemma late_fee_returns :
  exists a, value (run h (calculate_late_fee_for_book patron_id book_id) w) = Returns a.
Proof.
  destruct (find (fun b => Borrowed.book_id b =? book_id) borrowed) as [record |] eqn:F.
  - destruct (Z.le_gt_cases now (Borrowed.due_date record)) as [L | L].
    + rewrite (run_late_fee_not_overdue record F L). eexists. reflexivity.
    + rewrite (run_late_fee_overdue record F L). eexists. reflexivity.
  - rewrite (run_late_fee_no_record F). eexists. reflexivity.
Qed.

Lemma late_fee_no_gateway_call :
  filter is_gateway_call
         (calls (run h (calculate_late_fee_for_book patron_id book_id) w)) = [].
Proof.
  destruct (find (fun b => Borrowed.book_id b =? book_id) borrowed) as [record |] eqn:F.
  - destruct (Z.le_gt_cases now (Borrowed.due_date record)) as [L | L].
    + rewrite (run_late_fee_not_overdue record F L). reflexivity.
    + rewrite (run_late_fee_overdue record F L). reflexivity.
  - rewrite (run_late_fee_no_record F). reflexivity.
Qed.

(** C3.  For an outstanding borrow record that is [d >= 1] whole days
    overdue, [d] being the number of days between the due date and now
    truncated down, the assessment reports [d] days and the fee
    [min(15.00, 0.50 * min(d, 7) + 1.00 * max(d - 7, 0))]; seven days cost
    3.50 and eight days 4.50. *)
Theorem late_fee_formula (record : Borrowed.t) (d : Z) :
  find (fun b => Borrowed.book_id b =? book_id) borrowed = Some record ->
  d * us_per_day <= now - Borrowed.due_date record < (d + 1) * us_per_day ->
  1 <= d ->
  exists a,
    value (run h (calculate_late_fee_for_book patron_id book_id) w) = Returns a /\
    days_overdue a = d /\
    fee_amount a ==
      Qmin 15.00 (0.50 * inject_Z (Z.min d 7) + 1.00 * inject_Z (Z.max (d - 7) 0)) /\
    (d = 7 -> fee_amount a == 3.50) /\
    (d = 8 -> fee_amount a == 4.50).
Proof.
  intros F Hd H1.
  assert (L : Borrowed.due_date record < now) by (unfold us_per_day in Hd; lia).
  rewrite (run_late_fee_overdue record F L).
  rewrite (days_floor _ d Hd).
  eexists. split; [reflexivity |]. cbn [days_overdue fee_amount].
  split; [reflexivity |].
  assert (E : round2 (Qmin (tiered_fee d) 15.00) == inject_Z (half_dollars d) * 0.50).
  { rewrite round2_capped_fee. apply capped_fee_half_dollars. }
  repeat split.
  - rewrite E. unfold half_dollars.
    destruct (Z.leb_spec d 7) as [H7 | H7].
    + rewrite (Z.min_l d 7), (Z.max_r (d - 7) 0), (Z.min_l d 30) by lia.
      rewrite Q.min_r; q_arith.
    + rewrite (Z.min_r d 7), (Z.max_l (d - 7) 0) by lia.
      destruct (Z.le_gt_cases (2 * d - 7) 30) as [Hc | Hc].
      * rewrite Z.min_l by lia. rewrite Q.min_r; q_arith.
      * rewrite Z.min_r by lia. rewrite Q.min_l; q_arith.
  - intros ->. rewrite E. reflexivity.
  - intros ->. rewrite E. reflexivity.
Qed.

End LateFee.

(** A borrow of book 4 by patron 123456, seven days and one hour overdue. *)
Lemma late_fee_formula_witness :
  exists a,
    value (run Store.handler (calculate_late_fee_for_book "123456" 4)
               (Store.library (Store.jan15 + timedelta_days 7 + 3600000000)))
      = Returns a /\
    days_overdue a = 7 /\
    fee_amount a ==
      Qmin 15.00 (0.50 * inject_Z (Z.min 7 7) + 1.00 * inject_Z (Z.max (7 - 7) 0)) /\
    (7 = 7 -> fee_amount a == 3.50) /\
    (7 = 8 -> fee_amount a == 4.50).
Proof.
  apply (late_fee_formula Store.handler
           (Store.library (Store.jan15 + timedelta_days 7 + 3600000000)) "123456" 4
           (Store.borrowed_entry
              (Store.library (Store.jan15 + timedelta_days 7 + 3600000000))
              {| Store.patron_id := "123456"; Store.book_id := 4;
                 Store.borrow_date := Store.jan15 - timedelta_days 14;
                 Store.due_date := Store.jan15; Store.return_date := None |})
           7).
  - reflexivity.
  - vm_compute. split; [discriminate | reflexivity].
  - lia.
Defined.

Section LateFeeCap.

Context {W : Type} (h : Handler W).

Variable w : W.
Variable patron_id : string.
Variable book_id : Z.

Let borrowed := answer h (get_patron_borrowed_books patron_id) w.
Let w1 := after h (get_patron_borrowed_books patron_id) w.
Let now := answer h datetime_now w1.

(** From the nineteenth day on the capped fee is fifteen dollars. *)
Lemma capped_fee_from_day_19 (d : Z) :
  19 <= d -> Qmin (tiered_fee d) 15.00 == 15.00.
Proof.
  intros Hd. rewrite capped_fee_half_dollars. unfold half_dollars.
  destruct (Z.leb_spec d 7) as [H7 | H7]; [lia |].
  rewrite Z.min_r by lia. reflexivity.
Qed.

(** Up to the eighteenth day it stays below: 13.50 on day 17 and 14.50 on
    day 18. *)
Lemma capped_fee_before_day_19 (d : Z) :
  d <= 18 -> (Qmin (tiered_fee d) 15.00 < 15.00)%Q.
Proof.
  intros Hd. rewrite capped_fee_half_dollars. unfold half_dollars.
  destruct (Z.leb_spec d 7) as [H7 | H7].
  - rewrite Z.min_l by lia. q_arith.
  - rewrite Z.min_l by lia. q_arith.
Qed.

(** C1, amended.  For an outstanding borrow record that is [d >= 19]
    whole days overdue the fee is exactly 15.00 and the status says that
    the maximum fee has been applied. *)
Theorem late_fee_cap (record : Borrowed.t) (d : Z) :
  find (fun b => Borrowed.book_id b =? book_id) borrowed = Some record ->
  d * us_per_day <= now - Borrowed.due_date record < (d + 1) * us_per_day ->
  19 <= d ->
  exists a,
    value (run h (calculate_late_fee_for_book patron_id book_id) w) = Returns a /\
    days_overdue a = d /\
    fee_amount a == 15.00 /\
    status a = "Late fee: $15.00 for " ++ str_int d
                 ++ " days overdue (maximum fee applied)".
Proof.
  intros F Hd H19.
  assert (L : Borrowed.due_date record < now) by (unfold us_per_day in Hd; lia).
  rewrite (run_late_fee_overdue h w patron_id book_id record F L).
  fold borrowed w1 now. rewrite (days_floor _ d Hd).
  pose proof (capped_fee_from_day_19 d H19) as E.
  eexists. split; [reflexivity |]. cbn [days_overdue fee_amount status].
  split; [reflexivity |]. split.
  - rewrite round2_capped_fee. exact E.
  - assert (B : Qle_bool 15.00 (Qmin (tiered_fee d) 15.00) = true).
    { apply Qle_bool_iff. rewrite E. apply Qle_refl. }
    assert (Fm : format_2f (Qmin (tiered_fee d) 15.00) = "15.00").
    { unfold format_2f.
      rewrite (round_half_even_integer _ 1500) by (rewrite E; reflexivity).
      reflexivity. }
    rewrite B, Fm. cbn [append]. rewrite append_assoc. reflexivity.
Qed.

(** C9.  The fee calculator returns an assessment for every patron, book
    and current time; its fee lies between 0 and 15.00; and the fee and the
    day count are 0 when the patron has no outstanding record of the book
    and when the current time is not past the due date. *)
Theorem late_fee_bounds :
  exists a,
    value (run h (calculate_late_fee_for_book patron_id book_id) w) = Returns a /\
    (0 <= fee_amount a)%Q /\ (fee_amount a <= 15.00)%Q /\
    ((forall b, In b borrowed -> Borrowed.book_id b <> book_id) ->
     fee_amount a == 0 /\ days_overdue a = 0) /\
    (forall record,
       find (fun b => Borrowed.book_id b =? book_id) borrowed = Some record ->
       now <= Borrowed.due_date record ->
       fee_amount a == 0 /\ days_overdue a = 0).
Proof.
  destruct (find (fun b => Borrowed.book_id b =? book_id) borrowed) as [record |] eqn:F.
  - assert (M : In record borrowed /\ Borrowed.book_id record = book_id).
    { apply find_some in F. destruct F as [I E]. split; [exact I | lia]. }
    destruct (Z.le_gt_cases now (Borrowed.due_date record)) as [L | L].
    + rewrite (run_late_fee_not_overdue h w patron_id book_id record F L).
      eexists. split; [reflexivity |]. cbn [fee_amount days_overdue].
      repeat split; try q_arith; try reflexivity.
    + rewrite (run_late_fee_overdue h w patron_id book_id record F L).
      fold borrowed w1 now.
      set (d := days (now - Borrowed.due_date record)).
      assert (D : 0 <= d) by (apply days_nonneg; lia).
      assert (E : round2 (Qmin (tiered_fee d) 15.00) == inject_Z (half_dollars d) * 0.50).
      { rewrite round2_capped_fee. apply capped_fee_half_dollars. }
      assert (B : 0 <= half_dollars d <= 30).
      { unfold half_dollars. destruct (Z.leb_spec d 7); lia. }
      eexists. split; [reflexivity |]. cbn [fee_amount days_overdue].
      split; [| split; [| split]].
      * rewrite E. q_arith.
      * rewrite E. q_arith.
      * intros N. destruct M as [I Eb]. destruct (N record I Eb).
      * intros record' F' L'. injection F' as <-. lia.
  - rewrite (run_late_fee_no_record h w patron_id book_id F).
    eexists. split; [reflexivity |]. cbn [fee_amount days_overdue].
    split; [q_arith |]. split; [q_arith |]. split.
    + intros _. split; reflexivity.
    + intros record F'. discriminate F'.
Qed.

End LateFeeCap.

(** Book 4 is returned late by patron 123456: seventeen days after the due
    date the fee is 13.50, below the cap, and the status does not mention
    the maximum. *)
Lemma late_fee_day_17_below_cap :
  exists a,
    value (run Store.handler (calculate_late_fee_for_book "123456" 4)
               (Store.library (Store.jan15 + timedelta_days 17)))
      = Returns a /\
    days_overdue a = 17 /\
    fee_amount a == 13.50 /\
    ~ fee_amount a == 15.00 /\
    status a = "Late fee: $13.50 for 17 days overdue" /\
    contains "maximum fee applied" (status a) = false.
Proof.
  eexists. split; [reflexivity |].
  repeat split; try reflexivity. intros E. vm_compute in E. discriminate E.
Qed.

(** The same borrow, thirty days overdue as in the test of the cap. *)
Lemma late_fee_cap_witness :
  exists a,
    value (run Store.handler (calculate_late_fee_for_book "123456" 4)
               (Store.library (Store.jan15 + timedelta_days 30)))
      = Returns a /\
    days_overdue a = 30 /\
    fee_amount a == 15.00 /\
    status a = "Late fee: $15.00 for " ++ str_int 30
                 ++ " days overdue (maximum fee applied)".
Proof.
  apply (late_fee_cap Store.handler
           (Store.library (Store.jan15 + timedelta_days 30)) "123456" 4
           (Store.borrowed_entry
              (Store.library (Store.jan15 + timedelta_days 30))
              {| Store.patron_id := "123456"; Store.book_id := 4;
                 Store.borrow_date := Store.jan15 - timedelta_days 14;
                 Store.due_date := Store.jan15; Store.return_date := None |})
           30).
  - reflexivity.
  - vm_compute. split; [discriminate | reflexivity].
  - lia.
Defined.

(** The borrow on its due date: nothing is owed. *)
Lemma late_fee_bounds_witness :
  exists a,
    value (run Store.handler (calculate_late_fee_for_book "123456" 4)
               (Store.library Store.jan15))
      = Returns a /\
    (0 <= fee_amount a)%Q /\ (fee_amount a <= 15.00)%Q /\
    fee_amount a == 0 /\ days_overdue a = 0.
Proof.
  destruct (late_fee_bounds Store.handler (Store.library Store.jan15) "123456" 4)
    as [a [R [L [U [_ Z0]]]]].
  exists a. split; [exact R |]. split; [exact L |]. split; [exact U |].
  apply (Z0 (Store.borrowed_entry (Store.library Store.jan15)
               {| Store.patron_id := "123456"; Store.book_id := 4;
                  Store.borrow_date := Store.jan15 - timedelta_days 14;
                  Store.due_date := Store.jan15; Store.return_date := None |})).
  - reflexivity.
  - vm_compute. discriminate.
Defined.

(** *** Borrowing *)

Section Borrow.

Context {W : Type} (h : Handler W).

Variable w : W.
Variable patron_id : string.
Variable book_id : Z.

(** The answers of the collaborators along a borrow, each in the world the
    calls before it left. *)
Let found := answer h (get_book_by_id book_id) w.
Let w1 := after h (get_book_by_id book_id) w.
Let current_borrowed := answer h (get_patron_borrow_count patron_id) w1.
Let w2 := after h (get_patron_borrow_count patron_id) w1.
Let borrow_date := answer h datetime_now w2.
Let w3 := after h datetime_now w2.
Let due_date := borrow_date + timedelta_days 14.
Let inserted := answer h (insert_borrow_record patron_id book_id borrow_date due_date) w3.
Let w4 := after h (insert_borrow_record patron_id book_id borrow_date due_date) w3.
Let updated := answer h (update_book_availability book_id (-1)) w4.

(** C4.  With a valid patron id and an existing book that has a copy
    available, the borrow is rejected with the limit message exactly when
    the patron's outstanding-borrow count is greater than 5, and then
    nothing is written.  With a count of 5 or less the borrow goes ahead: a
    borrow record due in 14 days is inserted, and the borrow succeeds when
    both writes do. *)
Theorem borrow_limit (book : Book.t) :
  invalid_patron_id patron_id = false ->
  found = Some book ->
  0 < Book.available_copies book ->
  let r := run h (borrow_book_by_patron patron_id book_id) w in
  (value r = Returns (false, "You have reached the maximum borrowing limit of 5 books.")
   <-> 5 < current_borrowed) /\
  (5 < current_borrowed ->
   calls r = [Called (get_book_by_id book_id);
              Called (get_patron_borrow_count patron_id)]) /\
  (current_borrowed <= 5 ->
   In (Called (insert_borrow_record patron_id book_id borrow_date
                                    (borrow_date + timedelta_days 14)))
      (calls r) /\
   value r =
     Returns
       (if inserted then
          if updated then
            (true, "Successfully borrowed " ++ dquote ++ Book.title book ++ dquote
                     ++ ". Due date: "
                     ++ strftime_ymd (borrow_date + timedelta_days 14) ++ ".")
          else (false, "Database error occurred while updating book availability.")
        else (false, "Database error occurred while creating borrow record."))).
Proof.
  intros V F A r. subst r.
  unfold borrow_book_by_patron, call. rewrite V. cbn [bind].
  rewrite run_vis. fold found w1. rewrite F.
  apply Z.leb_gt in A. rewrite A. cbn [bind].
  rewrite run_vis. fold current_borrowed w2.
  destruct (Z.ltb_spec 5 current_borrowed) as [C | C].
  - cbn [run value calls]. split; [| split].
    + split; [intros _; exact C | reflexivity].
    + reflexivity.
    + lia.
  - cbn [bind]. rewrite run_vis. fold borrow_date w3.
    rewrite run_vis. fold due_date inserted w4.
    destruct inserted eqn:I; cbn [negb bind].
    + rewrite run_vis. fold updated.
      destruct updated eqn:U; cbn [negb run value calls].
      * split; [| split].
        -- split; [intros E; discriminate E | lia].
        -- lia.
        -- intros _. split; [do 3 right; left; reflexivity | reflexivity].
      * split; [| split].
        -- split; [intros E; discriminate E | lia].
        -- lia.
        -- intros _. split; [do 3 right; left; reflexivity | reflexivity].
    + cbn [run value calls]. split; [| split].
      * split; [intros E; discriminate E | lia].
      * lia.
      * intros _. split; [do 3 right; left; reflexivity | reflexivity].
Qed.

End Borrow.

(** Patron 123456 holds exactly five books and borrows a sixth. *)
Lemma borrow_limit_witness :
  let w := Store.with_loans 4 (Store.library (Store.jan15 - timedelta_days 7)) in
  let r := run Store.handler (borrow_book_by_patron "123456" 4) w in
  answer Store.handler (get_patron_borrow_count "123456") w = 5 /\
  value r = Returns (true, "Successfully borrowed " ++ dquote ++ "The Hunger Games"
                             ++ dquote ++ ". Due date: 2024-01-22.").
Proof.
  intros w r. split; [reflexivity |].
  destruct (borrow_limit Store.handler w "123456" 4 Store.hunger_games)
    as [_ [_ Allowed]].
  - reflexivity.
  - reflexivity.
  - reflexivity.
  - destruct Allowed as [_ Value].
    + vm_compute. discriminate.
    + exact Value.
Defined.

(** *** Returning *)

Section Return.

Context {W : Type} (h : Handler W).

Variable w : W.
Variable patron_id : string.
Variable book_id : Z.

Let found := answer h (get_book_by_id book_id) w.
Let w1 := after h (get_book_by_id book_id) w.
Let borrowed := answer h (get_patron_borrowed_books patron_id) w1.
Let w2 := after h (get_patron_borrowed_books patron_id) w1.
Let return_date := answer h datetime_now w2.
Let w3 := after h datetime_now w2.
Let return_success :=
  answer h (update_borrow_record_return_date patron_id book_id return_date) w3.
Let w4 := after h (update_borrow_record_return_date patron_id book_id return_date) w3.
Let availability_success := answer h (update_book_availability book_id 4) w4.
Let w5 := after h (update_book_availability book_id 4) w4.

(** A return that passes the checks makes the same five calls whatever
    the writes answer: both writes are always attempted, the availability
    change is 4, and the world left is the one the availability write
    produced. *)
Lemma run_return_book (book : Book.t) :
  invalid_patron_id patron_id = false ->
  found = Some book ->
  existsb (fun b => Borrowed.book_id b =? book_id) borrowed = true ->
  run h (return_book_by_patron patron_id book_id) w =
  {| value :=
       Returns (if return_success && availability_success
                then (true, "Successfully returned " ++ dquote ++ Book.title book
                              ++ dquote ++ ".")
                else (false, "Database error occurred during return process."));
     world := w5;
     calls := [Called (get_book_by_id book_id);
               Called (get_patron_borrowed_books patron_id);
               Called datetime_now;
               Called (update_borrow_record_return_date patron_id book_id return_date);
               Called (update_book_availability book_id 4)] |}.
Proof.
  intros V F B.
  unfold return_book_by_patron, call. rewrite V. cbn [bind].
  rewrite run_vis. fold found w1. rewrite F. cbn [bind].
  rewrite run_vis. fold borrowed w2. rewrite B. cbn [negb bind].
  rewrite run_vis. fold return_date w3.
  rewrite run_vis. fold return_success w4.
  rewrite run_vis. fold availability_success w5.
  destruct (return_success && availability_success); reflexivity.
Qed.

(** C10.  The two writes of a return are not atomic: when the write of
    the return date fails and the availability write succeeds, the
    availability write has still been made, after the failed one; the
    function reports the storage error; and nothing is written after the
    availability write, so the world it produced is the world left. *)
Theorem return_not_atomic (book : Book.t) :
  invalid_patron_id patron_id = false ->
  found = Some book ->
  existsb (fun b => Borrowed.book_id b =? book_id) borrowed = true ->
  return_success = false ->
  availability_success = true ->
  let r := run h (return_book_by_patron patron_id book_id) w in
  value r = Returns (false, "Database error occurred during return process.") /\
  calls r = [Called (get_book_by_id book_id);
             Called (get_patron_borrowed_books patron_id);
             Called datetime_now;
             Called (update_borrow_record_return_date patron_id book_id return_date);
             Called (update_book_availability book_id 4)] /\
  world r = after h (update_book_availability book_id 4) w4.
Proof.
  intros V F B RS AS r. subst r.
  rewrite (run_return_book book V F B). rewrite RS, AS.
  repeat split; reflexivity.
Qed.

End Return.

(** Patron 123456 returns book 4 while the storage fails the first write
    and performs the second: the return is reported as failed, the borrow
    record stays open, and the shelf count of the book has changed. *)
Lemma return_not_atomic_witness :
  let w := Store.with_writes [false; true] (Store.library (Store.jan15 - timedelta_days 1)) in
  let r := run Store.handler (return_book_by_patron "123456" 4) w in
  value r = Returns (false, "Database error occurred during return process.") /\
  map Store.return_date (Store.records (world r)) = [None] /\
  map Book.available_copies (Store.books w) = [2] /\
  map Book.available_copies (Store.books (world r)) = [6].
Proof.
  intros w r.
  destruct (return_not_atomic Store.handler w "123456" 4 Store.hunger_games)
    as [Value [_ World]]; try reflexivity.
  split; [exact Value |].
  fold r in World. rewrite World.
  repeat split; reflexivity.
Defined.

(** C2.  Patron 123456 returns book 4, of which two copies are on the
    shelf.  The return succeeds and closes the borrow record with the
    current time, but the availability write adds 4: six copies are
    reported available afterwards, not three. *)
Theorem return_book_adds_four_copies :
  let w := Store.library (Store.jan15 - timedelta_days 1) in
  let r := run Store.handler (return_book_by_patron "123456" 4) w in
  value r = Returns (true, "Successfully returned " ++ dquote ++ "The Hunger Games"
                             ++ dquote ++ ".") /\
  calls r = [Called (get_book_by_id 4);
             Called (get_patron_borrowed_books "123456");
             Called datetime_now;
             Called (update_borrow_record_return_date "123456" 4 (Store.clock w));
             Called (update_book_availability 4 4)] /\
  map Store.return_date (Store.records (world r)) = [Some (Store.clock w)] /\
  map Book.available_copies (Store.books w) = [2] /\
  map Book.available_copies (Store.books (world r)) = [2 + 4] /\
  map Book.available_copies (Store.books (world r)) <> [2 + 1].
Proof.
  intros w r. repeat split; try reflexivity. intros E. discriminate E.
Qed.

(** *** Paying and refunding *)

Lemma startswith_truthy (s p : string) :
  truthy p = true -> startswith s p = true -> truthy s = true.
Proof.
  destruct p; [discriminate |]. destruct s; [discriminate | reflexivity].
Qed.

(** The fee calculator raises nothing of its own. *)
Lemma bind_throw_free {A B : Type} (p : Prog A) (f : A -> Prog B) :
  throw_free p -> (forall a, throw_free (f a)) -> throw_free (bind p f).
Proof.
  intros P F. induction p as [a | e | X c k IH]; simpl in *.
  - apply F.
  - exact P.
  - intros x. apply IH, P.
Qed.

Lemma calculate_late_fee_throw_free (patron_id : string) (book_id : Z) :
  throw_free (calculate_late_fee_for_book patron_id book_id).
Proof.
  unfold calculate_late_fee_for_book, call. cbn [bind throw_free]. intros borrowed.
  destruct (find _ borrowed) as [record |]; [| exact I].
  cbn [bind throw_free]. intros now.
  destruct (now <=? Borrowed.due_date record); exact I.
Qed.

Section Payment.

Context {W : Type} (h : Handler W).

Variable w : W.
Variable patron_id : string.
Variable book_id : Z.

(** The run of the fee calculator that opens a payment, and the book
    lookup that follows it. *)
Let assessed := run h (calculate_late_fee_for_book patron_id book_id) w.
Let w1 := world assessed.
Let found := answer h (get_book_by_id book_id) w1.
Let w2 := after h (get_book_by_id book_id) w1.

(** A payment that reaches the gateway: one call of [process_payment],
    whose outcome decides the result. *)
Lemma run_pay_late_fees (g : Gateway) (a : LateFee) (book : Book.t) :
  invalid_patron_id patron_id = false ->
  value assessed = Returns a ->
  (0 < fee_amount a)%Q ->
  found = Some book ->
  let charge := process_payment g patron_id (fee_amount a)
                  ("Late fees for '" ++ Book.title book ++ "'") in
  run h (pay_late_fees patron_id book_id (Some g)) w =
  {| value :=
       match answer h charge w2 with
       | Returns (true, transaction_id, message) =>
           Returns (true, "Payment successful! " ++ message, Some transaction_id)
       | Returns (false, _, message) =>
           Returns (false, "Payment failed: " ++ message, None)
       | Raises (Exception text) =>
           Returns (false, "Payment processing error: " ++ text, None)
       | Raises (ExceptionStrRaises raised) => Raises raised
       | Raises (BaseException name) => Raises (BaseException name)
       end;
     world := after h charge w2;
     calls := calls assessed ++ [Called (get_book_by_id book_id); Called charge] |}.
Proof.
  intros V A P F charge.
  unfold pay_late_fees. rewrite V, run_bind. fold assessed w1. rewrite A.
  assert (N : Qle_bool (fee_amount a) 0 = false).
  { destruct (Qle_bool (fee_amount a) 0) eqn:E; [| reflexivity].
    apply Qle_bool_iff in E. destruct (Qlt_not_le _ _ P E). }
  rewrite N. unfold call. cbn [bind]. rewrite run_vis. fold found w2. rewrite F.
  cbn [gateway_or_default bind call_raising try_except].
  rewrite run_vis. fold charge.
  destruct (answer h charge w2)
    as [[[[|] transaction_id] message] | [text | raised | name]]; reflexivity.
Qed.

(** The fee calculator reads the borrowed books and, at most, the clock. *)
Lemma assessed_calls :
  calls assessed = [Called (get_patron_borrowed_books patron_id)] \/
  calls assessed = [Called (get_patron_borrowed_books patron_id); Called datetime_now].
Proof.
  unfold assessed.
  destruct (find (fun b => Borrowed.book_id b =? book_id)
                 (answer h (get_patron_borrowed_books patron_id) w))
    as [record |] eqn:F.
  - destruct (Z.le_gt_cases
                (answer h datetime_now (after h (get_patron_borrowed_books patron_id) w))
                (Borrowed.due_date record)) as [L | L].
    + rewrite (run_late_fee_not_overdue h w patron_id book_id record F L).
      right. reflexivity.
    + rewrite (run_late_fee_overdue h w patron_id book_id record F L).
      right. reflexivity.
  - rewrite (run_late_fee_no_record h w patron_id book_id F). left. reflexivity.
Qed.

(** A payment that stops at one of its three checks. *)
Lemma run_pay_refused (payment_gateway : option Gateway) (a : LateFee) :
  value assessed = Returns a ->
  invalid_patron_id patron_id = true \/ Qle_bool (fee_amount a) 0 = true \/ found = None ->
  exists message,
    value (run h (pay_late_fees patron_id book_id payment_gateway) w)
      = Returns (false, message, None) /\
    (calls (run h (pay_late_fees patron_id book_id payment_gateway) w) = [] \/
     calls (run h (pay_late_fees patron_id book_id payment_gateway) w) = calls assessed \/
     calls (run h (pay_late_fees patron_id book_id payment_gateway) w)
       = (calls assessed ++ [Called (get_book_by_id book_id)])%list).
Proof.
  intros A H. unfold pay_late_fees.
  destruct (invalid_patron_id patron_id) eqn:V.
  { eexists. split; [reflexivity | left; reflexivity]. }
  rewrite run_bind. fold assessed w1. rewrite A.
  destruct (Qle_bool (fee_amount a) 0) eqn:E.
  { eexists. split; [reflexivity |]. right. left. cbn. apply app_nil_r. }
  unfold call. cbn [bind]. rewrite run_vis. fold found w2.
  destruct H as [H | [H | H]]; try discriminate H.
  rewrite H. eexists. split; [reflexivity |]. right. right. reflexivity.
Qed.

(** A payment that passes its checks: the gateway is constructed if none
    was passed, and charged once. *)
Lemma run_pay_charged (payment_gateway : option Gateway) (a : LateFee) (book : Book.t) :
  invalid_patron_id patron_id = false ->
  value assessed = Returns a ->
  Qle_bool (fee_amount a) 0 = false ->
  found = Some book ->
  let charge := process_payment (gateway_in h w2 payment_gateway) patron_id (fee_amount a)
                  ("Late fees for '" ++ Book.title book ++ "'") in
  let w3 := world_with_gateway h w2 payment_gateway in
  run h (pay_late_fees patron_id book_id payment_gateway) w =
  {| value :=
       match answer h charge w3 with
       | Returns (true, transaction_id, message) =>
           Returns (true, "Payment successful! " ++ message, Some transaction_id)
       | Returns (false, _, message) =>
           Returns (false, "Payment failed: " ++ message, None)
       | Raises (Exception text) =>
           Returns (false, "Payment processing error: " ++ text, None)
       | Raises (ExceptionStrRaises raised) => Raises raised
       | Raises (BaseException name) => Raises (BaseException name)
       end;
     world := after h charge w3;
     calls := calls assessed
              ++ Called (get_book_by_id book_id)
                 :: match payment_gateway with
                    | Some _ => [Called charge]
                    | None => [Called PaymentGateway_new; Called charge]
                    end |}.
Proof.
  intros V A N F charge w3.
  unfold pay_late_fees. rewrite V, run_bind. fold assessed w1. rewrite A, N.
  unfold call. cbn [bind]. rewrite run_vis. fold found w2. rewrite F.
  destruct payment_gateway as [g |];
    cbn [gateway_or_default call bind call_raising try_except].
  - rewrite run_vis. fold charge.
    destruct (answer h _ w2)
      as [[[[|] transaction_id] message] | [text | raised | name]]; reflexivity.
  - rewrite run_vis, run_vis. fold charge.
    destruct (answer h _ (after h PaymentGateway_new w2))
      as [[[[|] transaction_id] message] | [text | raised | name]]; reflexivity.
Qed.

(** X19.  When the guard rejects the patron id, or the computed fee is 0
    or less, or the book is absent, [pay_late_fees] returns a failure and
    its run contains no call of [process_payment], nor any other contact
    with the payment service. *)
Theorem pay_without_gateway (payment_gateway : option Gateway) :
  invalid_patron_id patron_id = true \/
  (exists a, value assessed = Returns a /\ (fee_amount a <= 0)%Q) \/
  found = None ->
  let r := run h (pay_late_fees patron_id book_id payment_gateway) w in
  (exists message, value r = Returns (false, message, None)) /\
  count_calls is_process_payment (calls r) = 0%nat /\
  filter is_gateway_call (calls r) = [].
Proof.
  intros H r. subst r. unfold pay_late_fees.
  destruct (invalid_patron_id patron_id) eqn:V.
  { cbn. repeat split; eauto. }
  rewrite run_bind. fold assessed w1.
  destruct (late_fee_returns h w patron_id book_id) as [a A].
  fold assessed in A. rewrite A.
  pose proof (late_fee_no_gateway_call h w patron_id book_id) as G.
  fold assessed in G.
  assert (P : filter is_process_payment (calls assessed) = []).
  { clear - G. induction (calls assessed) as [| c l IH]; [reflexivity |].
    simpl in G. simpl.
    destruct c as [X c]. destruct c; simpl in *; try discriminate G; apply IH, G. }
  destruct (Qle_bool (fee_amount a) 0) eqn:E.
  - cbn [run value calls]. unfold count_calls.
    rewrite !filter_app, G, P. repeat split; eauto.
  - unfold call. cbn [bind]. rewrite run_vis. fold found w2.
    destruct H as [H | [[a' [A' H]] | H]].
    + discriminate H.
    + rewrite A in A'. injection A' as <-.
      apply Qle_bool_iff in H. rewrite H in E. discriminate E.
    + rewrite H. cbn [run value calls]. unfold count_calls.
      rewrite !filter_app, G, P. repeat split; eauto.
Qed.

End Payment.

(** Patron 123456 asks to pay for book 4 on its due date: nothing is owed
    and the gateway is left alone. *)
Lemma pay_without_gateway_witness :
  let r := run Store.handler (pay_late_fees "123456" 4 (Some 1%nat))
               (Store.library Store.jan15) in
  (exists message, value r = Returns (false, message, None)) /\
  count_calls is_process_payment (calls r) = 0%nat /\
  filter is_gateway_call (calls r) = [].
Proof.
  apply (pay_without_gateway Store.handler (Store.library Store.jan15) "123456" 4
                             (Some 1%nat)).
  right. left. eexists. split; [reflexivity |]. vm_compute. discriminate.
Defined.




(** C5.  The card id 12345 followed by a superscript two is not a patron
    id of six digits, yet the guard lets it through: with it a patron
    borrows book 4 on 15 January 2024, and seventeen days later, three days
    overdue, [pay_late_fees] for that id charges the gateway once and
    reports a successful payment. *)
Theorem pay_charges_malformed_patron :
  let borrowing := run Store.handler (borrow_book_by_patron superscript_id 4)
                       (Store.library Store.jan15) in
  let w := Store.at_time (Store.jan15 + timedelta_days 17) (world borrowing) in
  let r := run Store.handler (pay_late_fees superscript_id 4 (Some 1%nat)) w in
  six_digits superscript_id = false /\
  invalid_patron_id superscript_id = false /\
  value borrowing = Returns (true, "Successfully borrowed " ++ dquote
                                     ++ "The Hunger Games" ++ dquote
                                     ++ ". Due date: 2024-01-29.") /\
  value r = Returns (true, "Payment successful! Payment processed successfully",
                     Some "txn_abc123") /\
  count_calls is_process_payment (calls r) = 1%nat /\
  map charged_amount (filter is_process_payment (calls r)) = [Some (150 # 100)].
Proof.
  repeat split; reflexivity.
Qed.

Section Refund.

Context {W : Type} (h : Handler W).

Variable w : W.
Variable transaction_id : string.
Variable amount : Q.

(** The gateway a refund goes to, the caller's or a newly constructed
    one, and the world the refund is requested in. *)
Let refund_gateway := gateway_in h w.
Let refund_world := world_with_gateway h w.

(** A refund that passes validation: one call of [refund_payment], whose
    outcome decides the result. *)
Lemma run_refund (payment_gateway : option Gateway) :
  startswith transaction_id "txn_" = true ->
  (0 < amount)%Q ->
  (amount <= 15.00)%Q ->
  let refund := refund_payment (refund_gateway payment_gateway) transaction_id amount in
  run h (refund_late_fee_payment transaction_id amount payment_gateway) w =
  {| value :=
       match answer h refund (refund_world payment_gateway) with
       | Returns (true, message) => Returns (true, message)
       | Returns (false, message) => Returns (false, "Refund failed: " ++ message)
       | Raises (Exception text) =>
           Returns (false, "Refund processing error: " ++ text)
       | Raises (ExceptionStrRaises raised) => Raises raised
       | Raises (BaseException name) => Raises (BaseException name)
       end;
     world := after h refund (refund_world payment_gateway);
     calls :=
       match payment_gateway with
       | Some _ => [Called refund]
       | None => [Called PaymentGateway_new; Called refund]
       end |}.
Proof.
  intros S P U refund. unfold refund_late_fee_payment.
  rewrite S, (startswith_truthy transaction_id "txn_" eq_refl S).
  assert (N : Qle_bool amount 0 = false).
  { destruct (Qle_bool amount 0) eqn:E; [| reflexivity].
    apply Qle_bool_iff in E. destruct (Qlt_not_le _ _ P E). }
  apply Qle_bool_iff in U. rewrite N, U. cbn [negb orb].
  destruct payment_gateway as [g |];
    cbn [gateway_or_default call bind call_raising try_except].
  - rewrite run_vis. fold refund. cbn [refund_world].
    destruct (answer h _ w) as [[[|] message] | [text | raised | name]]; reflexivity.
  - rewrite run_vis, run_vis. fold refund. cbn [refund_world].
    destruct (answer h _ (after h PaymentGateway_new w))
      as [[[|] message] | [text | raised | name]]; reflexivity.
Qed.

(** A refund that fails validation makes no call. *)
Lemma run_refund_refused (payment_gateway : option Gateway) :
  startswith transaction_id "txn_" = false \/ Qle_bool amount 0 = true
  \/ Qle_bool amount 15.00 = false ->
  exists message,
    run h (refund_late_fee_payment transaction_id amount payment_gateway) w =
    {| value := Returns (false, message); world := w; calls := [] |}.
Proof.
  intros H. unfold refund_late_fee_payment.
  destruct (negb (truthy transaction_id) || negb (startswith transaction_id "txn_"))
    eqn:T.
  { eexists. reflexivity. }
  destruct (Qle_bool amount 0) eqn:L.
  { eexists. reflexivity. }
  destruct (Qle_bool amount 15.00) eqn:U.
  - exfalso. destruct H as [H | [H | H]]; try discriminate H.
    rewrite H in T. rewrite orb_true_r in T. discriminate T.
  - eexists. reflexivity.
Qed.

(** C6.  A transaction id that does not start with the gateway's [txn_],
    an amount of 0 or less and an amount above 15.00 are each refused
    without any call at all; a well-formed id with an amount in (0, 15.00]
    leads to exactly one call of [refund_payment], with that id and
    amount. *)
Theorem refund_validation (payment_gateway : option Gateway) :
  let r := run h (refund_late_fee_payment transaction_id amount payment_gateway) w in
  (startswith transaction_id "txn_" = false \/ (amount <= 0)%Q \/ (15.00 < amount)%Q ->
   (exists message, value r = Returns (false, message)) /\
   count_calls is_refund_payment (calls r) = 0%nat /\
   calls r = []) /\
  (startswith transaction_id "txn_" = true -> (0 < amount)%Q -> (amount <= 15.00)%Q ->
   count_calls is_refund_payment (calls r) = 1%nat /\
   filter is_refund_payment (calls r) =
     [Called (refund_payment (refund_gateway payment_gateway) transaction_id amount)]).
Proof.
  intros r. subst r. split.
  - intros H. unfold refund_late_fee_payment.
    destruct (negb (truthy transaction_id) || negb (startswith transaction_id "txn_"))
      eqn:T.
    { cbn. repeat split; eauto. }
    destruct (Qle_bool amount 0) eqn:L.
    { cbn. repeat split; eauto. }
    destruct (Qle_bool amount 15.00) eqn:U.
    + exfalso. destruct H as [H | [H | H]].
      * rewrite H in T. rewrite orb_true_r in T. discriminate T.
      * apply Qle_bool_iff in H. rewrite H in L. discriminate L.
      * apply Qle_bool_iff in U. exact (Qlt_not_le _ _ H U).
    + cbn. repeat split; eauto.
  - intros S P U. rewrite (run_refund payment_gateway S P U). cbn [calls].
    destruct payment_gateway; split; reflexivity.
Qed.

Variable patron_id : string.
Variable book_id : Z.

Let assessed := run h (calculate_late_fee_for_book patron_id book_id) w.
Let found := answer h (get_book_by_id book_id) (world assessed).
Let w2 := after h (get_book_by_id book_id) (world assessed).

(** C7, amended.  What an injected gateway returns or raises decides the
    result, and neither function raises anything of its own.  When
    [pay_late_fees] reaches the gateway, a successful charge gives a
    success with the gateway's message and transaction id, a declined
    charge a failure with the gateway's reason, and an instance of
    [Exception] a failure with its text; an exception that is not an
    instance of [Exception], and one raised while the text is taken,
    reaches the caller.  [refund_late_fee_payment] does the same, except
    that its success is the pair of [True] and the gateway's message: the
    result has no field for a transaction id.  Whatever either function
    raises is such an exception of the gateway's. *)
Theorem gateway_outcomes (g : Gateway) :
  (forall a book,
     invalid_patron_id patron_id = false ->
     value assessed = Returns a ->
     (0 < fee_amount a)%Q ->
     found = Some book ->
     value (run h (pay_late_fees patron_id book_id (Some g)) w) =
     match answer h (process_payment g patron_id (fee_amount a)
                       ("Late fees for '" ++ Book.title book ++ "'")) w2 with
     | Returns (true, transaction, message) =>
         Returns (true, "Payment successful! " ++ message, Some transaction)
     | Returns (false, _, message) =>
         Returns (false, "Payment failed: " ++ message, None)
     | Raises (Exception text) =>
         Returns (false, "Payment processing error: " ++ text, None)
     | Raises (ExceptionStrRaises raised) => Raises raised
     | Raises (BaseException name) => Raises (BaseException name)
     end) /\
  (forall x,
     value (run h (pay_late_fees patron_id book_id (Some g)) w) = Raises x ->
     exists a book,
       value assessed = Returns a /\ found = Some book /\
       escaping (answer h (process_payment g patron_id (fee_amount a)
                             ("Late fees for '" ++ Book.title book ++ "'")) w2)
         = Some x) /\
  (startswith transaction_id "txn_" = true -> (0 < amount)%Q -> (amount <= 15.00)%Q ->
   value (run h (refund_late_fee_payment transaction_id amount (Some g)) w) =
   match answer h (refund_payment g transaction_id amount) w with
   | Returns (true, message) => Returns (true, message)
   | Returns (false, message) => Returns (false, "Refund failed: " ++ message)
   | Raises (Exception text) => Returns (false, "Refund processing error: " ++ text)
   | Raises (ExceptionStrRaises raised) => Raises raised
   | Raises (BaseException name) => Raises (BaseException name)
   end) /\
  (forall x,
     value (run h (refund_late_fee_payment transaction_id amount (Some g)) w) = Raises x ->
     escaping (answer h (refund_payment g transaction_id amount) w) = Some x).
Proof.
  split; [| split; [| split]].
  - intros a book V A P F.
    rewrite (run_pay_late_fees h w patron_id book_id g a book V A P F). reflexivity.
  - intros x R.
    destruct (late_fee_returns h w patron_id book_id) as [a A]. fold assessed in A.
    assert (Refused :
              invalid_patron_id patron_id = true \/ Qle_bool (fee_amount a) 0 = true
              \/ found = None -> False).
    { intros H.
      destruct (run_pay_refused h w patron_id book_id (Some g) a A H) as [message [E _]].
      rewrite E in R. discriminate R. }
    destruct (invalid_patron_id patron_id) eqn:V; [destruct Refused; left; reflexivity |].
    destruct (Qle_bool (fee_amount a) 0) eqn:N;
      [destruct Refused; right; left; reflexivity |].
    destruct found as [book |] eqn:F; [| destruct Refused; right; right; reflexivity].
    exists a, book. split; [exact A |]. split; [reflexivity |].
    rewrite (run_pay_charged h w patron_id book_id (Some g) a book V A N F) in R.
    cbn [value gateway_in world_with_gateway] in R. fold w2 in R.
    destruct (answer h _ w2)
      as [[[[|] transaction] message] | [text | raised | name]];
      try discriminate R; injection R as <-; reflexivity.
  - intros S P U. rewrite (run_refund (Some g) S P U). reflexivity.
  - intros x R.
    assert (Refused :
              startswith transaction_id "txn_" = false \/ Qle_bool amount 0 = true
              \/ Qle_bool amount 15.00 = false -> False).
    { intros H. destruct (run_refund_refused (Some g) H) as [message E].
      rewrite E in R. discriminate R. }
    destruct (startswith transaction_id "txn_") eqn:S;
      [| destruct Refused; left; reflexivity].
    destruct (Qle_bool amount 0) eqn:N; [destruct Refused; right; left; reflexivity |].
    destruct (Qle_bool amount 15.00) eqn:U;
      [| destruct Refused; right; right; reflexivity].
    assert (P : (0 < amount)%Q).
    { apply Qnot_le_lt. intros L. apply Qle_bool_iff in L. congruence. }
    apply Qle_bool_iff in U.
    rewrite (run_refund (Some g) S P U) in R. cbn [value] in R.
    unfold refund_gateway, refund_world in R. cbn [gateway_in world_with_gateway] in R.
    destruct (answer h _ w) as [[[|] message] | [text | raised | name]];
      try discriminate R; injection R as <-; reflexivity.
Qed.

End Refund.

(** The refunds of the tests: five dollars on transaction [txn_abc123] are
    sent to the gateway once; twenty dollars are refused. *)
Lemma refund_validation_witness :
  let w := Store.library Store.jan15 in
  count_calls is_refund_payment
    (calls (run Store.handler (refund_late_fee_payment "txn_abc123" 5.00 (Some 1%nat)) w))
    = 1%nat /\
  calls (run Store.handler (refund_late_fee_payment "txn_abc123" 20.0 (Some 1%nat)) w)
    = [].
Proof.
  intros w. split.
  - destruct (refund_validation Store.handler w "txn_abc123" 5.00 (Some 1%nat))
      as [_ Valid].
    destruct Valid as [Once _]; [reflexivity | reflexivity | | exact Once].
    vm_compute. discriminate.
  - destruct (refund_validation Store.handler w "txn_abc123" 20.0 (Some 1%nat))
      as [Refused _].
    destruct Refused as [_ [_ Empty]]; [| exact Empty].
    right. right. reflexivity.
Defined.

(** A gateway that raises an [Exception] on both methods: the payment of
    a three-day fee and a refund both come back as failures carrying the
    text of the exception. *)
Lemma gateway_outcomes_witness :
  let w := Store.with_gateway (Raises (Exception "Network timeout"))
                              (Raises (Exception "Gateway error"))
             (Store.library (Store.jan15 + timedelta_days 3)) in
  value (run Store.handler (pay_late_fees "123456" 4 (Some 1%nat)) w)
    = Returns (false, "Payment processing error: Network timeout", None) /\
  value (run Store.handler (refund_late_fee_payment "txn_abc123" 8.50 (Some 1%nat)) w)
    = Returns (false, "Refund processing error: Gateway error").
Proof.
  intros w.
  destruct (gateway_outcomes Store.handler w "txn_abc123" 8.50 "123456" 4 1%nat)
    as [Pay [_ [Refund _]]].
  split.
  - refine (Pay {| fee_amount := round2 (Qmin (tiered_fee 3) 15.00);
                   days_overdue := 3;
                   status := "Late fee: $1.50 for 3 days overdue" |}
                Store.hunger_games _ _ _ _); reflexivity.
  - apply Refund; [reflexivity | reflexivity |]. vm_compute. discriminate.
Defined.

(** A successful refund of transaction [txn_abc123]: the result is the
    pair of [True] and the gateway's message; the transaction id occurs
    nowhere in it, and the refund of another transaction gives the same
    result. *)
Lemma refund_success_without_transaction_id :
  let w := Store.library Store.jan15 in
  let r := run Store.handler (refund_late_fee_payment "txn_abc123" 5.00 (Some 1%nat)) w in
  value r = Returns (true, "Refund processed successfully") /\
  contains "txn_abc123" "Refund processed successfully" = false /\
  value (run Store.handler (refund_late_fee_payment "txn_def456" 5.00 (Some 1%nat)) w)
    = value r.
Proof.
  intros w r. repeat split; reflexivity.
Qed.

(** Two ways in which the claim of the specification fails.  A successful
    refund carries no transaction id, as above.  And a gateway whose
    [process_payment] is interrupted from the keyboard, and whose
    [refund_payment] raises an exception that cannot be printed, makes both
    functions raise: neither exception is caught. *)
Lemma gateway_claim_counterexample :
  (let w := Store.library Store.jan15 in
   let r := run Store.handler
                (refund_late_fee_payment "txn_abc123" 5.00 (Some 1%nat)) w in
   value r = Returns (true, "Refund processed successfully") /\
   contains "txn_abc123" "Refund processed successfully" = false /\
   value (run Store.handler (refund_late_fee_payment "txn_def456" 5.00 (Some 1%nat)) w)
     = value r) /\
  (let w := Store.with_gateway
              (Raises (BaseException "KeyboardInterrupt"))
              (Raises (ExceptionStrRaises (Exception "__str__ returned non-string")))
              (Store.library (Store.jan15 + timedelta_days 3)) in
   value (run Store.handler (pay_late_fees "123456" 4 (Some 1%nat)) w)
     = Raises (BaseException "KeyboardInterrupt") /\
   value (run Store.handler (refund_late_fee_payment "txn_abc123" 8.50 (Some 1%nat)) w)
     = Raises (Exception "__str__ returned non-string")).
Proof.
  split; [repeat split; reflexivity | split; reflexivity].
Qed.

(** *** The catalogue *)

Lemma strip_empty_falsy (s : string) : truthy s = false -> truthy (strip s) = false.
Proof.
  destruct s; [reflexivity | discriminate].
Qed.

Section Catalog.

Context {W : Type} (h : Handler W).

Variable w : W.
Variables title author isbn : string.
Variable total_copies : Z.

Let existing := answer h (get_book_by_isbn isbn) w.
Let w1 := after h (get_book_by_isbn isbn) w.
Let entry := insert_book (strip title) (strip author) isbn total_copies total_copies.

(** C8, amended.  [add_book_to_catalog] applies the checks in the stated
    order to the title and the author with the surrounding whitespace
    removed, and returns the reason of the first check that fails, without
    writing.  When every check passes it asks the storage for one book,
    with the trimmed title and author and with as many copies available as
    there are in total, and it succeeds when that write does. *)
Theorem add_book_validation :
  let r := run h (add_book_to_catalog title author isbn total_copies) w in
  match first_failed_check (strip title) (strip author) isbn total_copies
                           (is_some existing) with
  | Some reason =>
      value r = Returns (false, reason) /\ filter is_insert_book (calls r) = []
  | None =>
      calls r = [Called (get_book_by_isbn isbn);
                 Called (insert_book (strip title) (strip author) isbn
                                     total_copies total_copies)] /\
      value r =
        Returns (if answer h entry w1
                 then (true, "Book " ++ dquote ++ strip title ++ dquote
                               ++ " has been successfully added to the catalog.")
                 else (false, "Database error occurred while adding the book."))
  end.
Proof.
  intros r. subst r. unfold add_book_to_catalog, first_failed_check.
  destruct (truthy (strip title)) eqn:T.
  2:{ rewrite orb_true_r. cbn. split; reflexivity. }
  assert (T' : truthy title = true).
  { destruct (truthy title) eqn:E; [reflexivity |].
    rewrite (strip_empty_falsy title E) in T. discriminate T. }
  rewrite T'. cbn [negb orb].
  destruct (200 <? len (strip title)); [cbn; split; reflexivity |].
  destruct (truthy (strip author)) eqn:A.
  2:{ rewrite orb_true_r. cbn. split; reflexivity. }
  assert (A' : truthy author = true).
  { destruct (truthy author) eqn:E; [reflexivity |].
    rewrite (strip_empty_falsy author E) in A. discriminate A. }
  rewrite A'. cbn [negb orb].
  destruct (100 <? len (strip author)); [cbn; split; reflexivity |].
  destruct (negb (len isbn =? 13)); [cbn; split; reflexivity |].
  destruct (total_copies <=? 0); [cbn; split; reflexivity |].
  unfold call. cbn [bind]. rewrite run_vis. fold existing w1.
  destruct existing as [book |]; cbn [is_some].
  - cbn. split; reflexivity.
  - cbn [bind]. rewrite run_vis. fold entry.
    destruct (answer h entry w1); cbn; split; reflexivity.
Qed.

End Catalog.

(** A title of one space is not empty and is shorter than 200 characters,
    and every other stated check passes as well; the service refuses it
    all the same, with the reason of the title check, and writes
    nothing. *)
Lemma add_book_blank_title_refused :
  let w := Store.library Store.jan15 in
  let r := run Store.handler (add_book_to_catalog " " "Author" "1234567890123" 5) w in
  first_failed_check " " "Author" "1234567890123" 5
    (is_some (answer Store.handler (get_book_by_isbn "1234567890123") w)) = None /\
  value r = Returns (false, "Title is required.") /\
  calls r = [] /\
  Store.books (world r) = Store.books w.
Proof.
  intros w r. repeat split; reflexivity.
Qed.

(** A new book whose title is written with spaces around it: it is
    stored trimmed, with all five copies available, and a lookup by ISBN
    finds it so. *)
Lemma add_book_validation_witness :
  let w := Store.library Store.jan15 in
  let r := run Store.handler (add_book_to_catalog "  Test Book " "Test Author"
                                                  "1234567890123" 5) w in
  value r = Returns (true, "Book " ++ dquote ++ "Test Book" ++ dquote
                             ++ " has been successfully added to the catalog.") /\
  answer Store.handler (get_book_by_isbn "1234567890123") (world r)
    = Some (Book.make 2 "Test Book" "Test Author" "1234567890123" 5 5).
Proof.
  intros w r.
  pose proof (add_book_validation Store.handler w "  Test Book " "Test Author"
                                  "1234567890123" 5) as [_ Value].
  split; [exact Value | reflexivity].
Defined.

(** *** The tests of the repository, replayed *)

Section Tests.

Let w := Store.library (Store.jan15 + timedelta_days 10).

Example test_add_book_invalid_isbn_too_short :
  value (run Store.handler (add_book_to_catalog "Test Book" "Test Author" "123456789" 5) w)
  = Returns (false, "ISBN must be exactly 13 digits.").
Proof. reflexivity. Qed.

Example test_add_book_missing_title :
  value (run Store.handler (add_book_to_catalog EmptyString "Author" "1234567890123" 5) w)
  = Returns (false, "Title is required.").
Proof. reflexivity. Qed.

Example test_add_book_invalid_copies :
  value (run Store.handler (add_book_to_catalog "Book" "Author" "1234567890123" (-1)) w)
  = Returns (false, "Total copies must be a positive integer.").
Proof. reflexivity. Qed.

Example test_add_book_duplicate_isbn :
  value (run Store.handler (add_book_to_catalog "Book" "Author" "9780439023528" 5) w)
  = Returns (false, "A book with this ISBN already exists.").
Proof. reflexivity. Qed.

Example test_add_book_database_error :
  value (run Store.handler (add_book_to_catalog "Test Book" "Test Author" "1234567890123" 5)
             (Store.with_writes [false] w))
  = Returns (false, "Database error occurred while adding the book.").
Proof. reflexivity. Qed.

Example test_invalid_patron_id :
  value (run Store.handler (borrow_book_by_patron "12A456" 1) w)
  = Returns (false, "Invalid patron ID. Must be exactly 6 digits.").
Proof. reflexivity. Qed.

Example test_book_not_found :
  value (run Store.handler (borrow_book_by_patron "123456" 999) w)
  = Returns (false, "Book not found.").
Proof. reflexivity. Qed.

Example test_patron_limit_reached :
  answer Store.handler (get_patron_borrow_count "123456") (Store.with_loans 5 w) = 6 /\
  value (run Store.handler (borrow_book_by_patron "123456" 4) (Store.with_loans 5 w))
  = Returns (false, "You have reached the maximum borrowing limit of 5 books.").
Proof. split; reflexivity. Qed.

Example test_borrow_book_database_error :
  value (run Store.handler (borrow_book_by_patron "123456" 4)
             (Store.with_writes [false] w))
  = Returns (false, "Database error occurred while creating borrow record.").
Proof. reflexivity. Qed.

Example test_return_book_invalid_patron :
  value (run Store.handler (return_book_by_patron "123" 1) w)
  = Returns (false, "INvalid patron ID. Must be exactly 6 digits.").
Proof. reflexivity. Qed.

Example test_pay_late_fees_success :
  let r := run Store.handler (pay_late_fees "123456" 4 (Some 1%nat)) w in
  value r = Returns (true, "Payment successful! Payment processed successfully",
                     Some "txn_abc123") /\
  count_calls is_process_payment (calls r) = 1%nat.
Proof. split; reflexivity. Qed.

Example test_pay_late_fees_declined_by_gateway :
  let r := run Store.handler (pay_late_fees "123456" 4 (Some 1%nat))
               (Store.with_gateway (Returns (false, EmptyString, "Payment declined"))
                                   (Raises (Exception "unused")) w) in
  value r = Returns (false, "Payment failed: Payment declined", None) /\
  count_calls is_process_payment (calls r) = 1%nat.
Proof. split; reflexivity. Qed.

Example test_pay_late_fees_invalid_patron_id_no_gateway_call :
  let r := run Store.handler (pay_late_fees "12A456" 4 (Some 1%nat)) w in
  value r = Returns (false, "Invalid patron ID. Must be exactly 6 digits.", None) /\
  calls r = [].
Proof. split; reflexivity. Qed.

Example test_pay_late_fees_default_gateway :
  let r := run Store.handler (pay_late_fees "123456" 4 None) w in
  value r = Returns (true, "Payment successful! Payment processed successfully",
                     Some "txn_abc123") /\
  count_calls is_gateway_call (calls r) = 2%nat.
Proof. split; reflexivity. Qed.

Example test_refund_late_fee_payment_invalid_transaction_id :
  let r := run Store.handler (refund_late_fee_payment "invalid_txn" 5.00 (Some 1%nat)) w in
  value r = Returns (false, "Invalid transaction ID.") /\ calls r = [].
Proof. split; reflexivity. Qed.

Example test_refund_late_fee_payment_invalid_amounts :
  map (fun amount =>
         value (run Store.handler
                    (refund_late_fee_payment "txn_abc123" amount (Some 1%nat)) w))
      [(-5.0)%Q; 0.0%Q; 20.0%Q; 15.01%Q]
  = [Returns (false, "Refund amount must be greater than 0.");
     Returns (false, "Refund amount must be greater than 0.");
     Returns (false, "Refund amount exceeds maximum late fee.");
     Returns (false, "Refund amount exceeds maximum late fee.")].
Proof. reflexivity. Qed.

Example test_refund_late_fee_payment_maximum_allowed :
  let r := run Store.handler (refund_late_fee_payment "txn_abc123" 15.00 (Some 1%nat)) w in
  value r = Returns (true, "Refund processed successfully") /\
  count_calls is_refund_payment (calls r) = 1%nat.
Proof. split; reflexivity. Qed.

End Tests.

(** ** Further properties *)

(** *** Strings *)

Lemma prefix_cons (c : ascii) (p s : string) :
  String.prefix (String c p) (String c s) = String.prefix p s.
Proof.
  simpl. destruct (ascii_dec c c) as [_ | N]; [reflexivity | destruct (N eq_refl)].
Qed.

Lemma prefix_cons_inv (a b : ascii) (p s : string) :
  String.prefix (String a p) (String b s) = true -> a = b /\ String.prefix p s = true.
Proof.
  simpl. destruct (ascii_dec a b) as [E | N]; [intros P; split; assumption | discriminate].
Qed.

Lemma prefix_refl (s : string) : String.prefix s s = true.
Proof.
  induction s as [| c s IH]; [reflexivity | rewrite prefix_cons; exact IH].
Qed.

Lemma prefix_contains (p s : string) : String.prefix p s = true -> contains p s = true.
Proof.
  intros P. destruct s; cbn [contains]; rewrite P; reflexivity.
Qed.

Lemma contains_cons (n : string) (c : ascii) (s : string) :
  contains n s = true -> contains n (String c s) = true.
Proof.
  intros C. cbn [contains]. rewrite C. apply orb_true_r.
Qed.

Lemma prefix_length (p s : string) :
  String.prefix p s = true -> (String.length p <= String.length s)%nat.
Proof.
  revert s. induction p as [| a p IH]; intros s P; [simpl; lia |].
  destruct s as [| b s]; [discriminate P |].
  apply prefix_cons_inv in P. destruct P as [_ P]. apply IH in P. simpl. lia.
Qed.

Lemma prefix_same_length (p s : string) :
  String.prefix p s = true -> String.length p = String.length s -> p = s.
Proof.
  revert s. induction p as [| a p IH]; intros s P L.
  - destruct s; [reflexivity | discriminate L].
  - destruct s as [| b s]; [discriminate P |].
    apply prefix_cons_inv in P. destruct P as [-> P].
    injection L as L. rewrite (IH s P L). reflexivity.
Qed.

Lemma contains_length (n s : string) :
  contains n s = true -> (String.length n <= String.length s)%nat.
Proof.
  induction s as [| c s IH]; cbn [contains]; intros C.
  - rewrite orb_false_r in C. apply prefix_length in C. exact C.
  - apply orb_true_iff in C. destruct C as [P | C].
    + apply prefix_length in P. exact P.
    + apply IH in C. simpl. lia.
Qed.

(** A needle as long as the haystack is found only when it is the
    haystack. *)
Lemma contains_same_length (n s : string) :
  contains n s = true -> String.length n = String.length s -> n = s.
Proof.
  destruct s as [| c s]; cbn [contains]; intros C L.
  - rewrite orb_false_r in C. apply prefix_same_length; assumption.
  - apply orb_true_iff in C. destruct C as [P | C].
    + apply prefix_same_length; assumption.
    + apply contains_length in C. simpl in L. lia.
Qed.

Lemma lstrip_idem (s : string) : lstrip (lstrip s) = lstrip s.
Proof.
  induction s as [| c s IH]; [reflexivity |].
  simpl. destruct (isspace c) eqn:E; [exact IH |].
  simpl. rewrite E. reflexivity.
Qed.

Lemma rstrip_idem (s : string) : rstrip (rstrip s) = rstrip s.
Proof.
  induction s as [| c s IH]; [reflexivity |].
  simpl. destruct (rstrip s) as [| d r] eqn:R.
  - destruct (isspace c) eqn:E; [reflexivity |]. simpl. rewrite E. reflexivity.
  - change (rstrip (String c (String d r)))
      with (match rstrip (String d r) with
            | EmptyString => if isspace c then EmptyString else String c EmptyString
            | String x y => String c (String x y)
            end).
    rewrite IH. reflexivity.
Qed.

(** Stripping the right end leaves a stripped left end alone. *)
Lemma lstrip_rstrip (s : string) : lstrip s = s -> lstrip (rstrip s) = rstrip s.
Proof.
  destruct s as [| c s]; [reflexivity |].
  intros L. assert (E : isspace c = false).
  { destruct (isspace c) eqn:E; [| reflexivity].
    simpl in L. rewrite E in L.
    assert (Len : String.length (lstrip s) = S (String.length s)) by (rewrite L; reflexivity).
    assert (Le : forall t, (String.length (lstrip t) <= String.length t)%nat).
    { clear. induction t as [| x t IH]; simpl; [lia |].
      destruct (isspace x); simpl; lia. }
    specialize (Le s). lia. }
  simpl. destruct (rstrip s); [rewrite E |]; simpl; rewrite E; reflexivity.
Qed.

Lemma strip_idem (s : string) : strip (strip s) = strip s.
Proof.
  unfold strip. rewrite (lstrip_rstrip (lstrip s) (lstrip_idem s)).
  apply rstrip_idem.
Qed.

Lemma rstrip_prefix (s : string) : String.prefix (rstrip s) s = true.
Proof.
  induction s as [| c s IH]; [reflexivity |].
  simpl rstrip. destruct (rstrip s) as [| d r].
  - destruct (isspace c); [reflexivity |]. rewrite prefix_cons.
    destruct s; reflexivity.
  - rewrite prefix_cons. exact IH.
Qed.

Lemma contains_lstrip (n s : string) :
  contains n (lstrip s) = true -> contains n s = true.
Proof.
  induction s as [| c s IH]; [trivial |].
  simpl lstrip. destruct (isspace c); [| trivial].
  intros C. apply contains_cons, IH, C.
Qed.

(** A string contains what is left of it after stripping. *)
Lemma contains_strip (s : string) : contains (strip s) s = true.
Proof.
  apply contains_lstrip. unfold strip. apply prefix_contains, rstrip_prefix.
Qed.

Lemma lower_char_space (c : ascii) : isspace (lower_char c) = isspace c.
Proof.
  destruct c as [[|] [|] [|] [|] [|] [|] [|] [|]]; reflexivity.
Qed.

Lemma lower_char_idem (c : ascii) : lower_char (lower_char c) = lower_char c.
Proof.
  destruct c as [[|] [|] [|] [|] [|] [|] [|] [|]]; reflexivity.
Qed.

Lemma lower_idem (s : string) : lower (lower s) = lower s.
Proof.
  induction s as [| c s IH]; [reflexivity |].
  simpl. rewrite lower_char_idem, IH. reflexivity.
Qed.

Lemma lower_length (s : string) : String.length (lower s) = String.length s.
Proof.
  induction s as [| c s IH]; [reflexivity | simpl; rewrite IH; reflexivity].
Qed.

Lemma lower_truthy (s : string) : truthy (lower s) = truthy s.
Proof.
  destruct s; reflexivity.
Qed.

Lemma lower_lstrip (s : string) : lower (lstrip s) = lstrip (lower s).
Proof.
  induction s as [| c s IH]; [reflexivity |].
  simpl. rewrite lower_char_space. destruct (isspace c); [exact IH | reflexivity].
Qed.

Lemma lower_rstrip (s : string) : lower (rstrip s) = rstrip (lower s).
Proof.
  induction s as [| c s IH]; [reflexivity |].
  simpl. rewrite <- IH, lower_char_space.
  destruct (rstrip s); [destruct (isspace c) |]; reflexivity.
Qed.

(** Lower-casing and stripping commute: no letter turns into white space
    or out of it. *)
Lemma lower_strip (s : string) : lower (strip s) = strip (lower s).
Proof.
  unfold strip. rewrite lower_rstrip, lower_lstrip. reflexivity.
Qed.

Lemma prefix_lower (p s : string) :
  String.prefix p s = true -> String.prefix (lower p) (lower s) = true.
Proof.
  revert s. induction p as [| a p IH]; intros s P; [destruct s; reflexivity |].
  destruct s as [| b s]; [discriminate P |].
  apply prefix_cons_inv in P. destruct P as [-> P].
  cbn [lower]. rewrite prefix_cons. apply IH, P.
Qed.

Lemma contains_lower (n s : string) :
  contains n s = true -> contains (lower n) (lower s) = true.
Proof.
  induction s as [| c s IH]; cbn [contains lower]; intros C.
  - rewrite orb_false_r in C |- *. apply (prefix_lower n EmptyString C).
  - apply orb_true_iff in C. apply orb_true_iff. destruct C as [P | C].
    + left. apply (prefix_lower n (String c s) P).
    + right. apply IH, C.
Qed.

(** *** Searching the catalogue *)

(** The blank test of the search looks at the stripped, lower-cased term
    only. *)
Lemma search_blank_test (term : string) :
  negb (truthy term) || negb (truthy (strip term)) = negb (truthy (lower (strip term))).
Proof.
  rewrite lower_truthy. destruct (truthy term) eqn:T; [reflexivity |].
  rewrite (strip_empty_falsy term T). reflexivity.
Qed.

(** X1.  A book of the catalogue whose title is not blank is found by a
    title search for its title, in any capitalisation; and likewise by an
    author search for its author. *)
Theorem search_finds_own_title_and_author (all_books : list Book.t) (book : Book.t)
    (term : string) :
  In book all_books ->
  (truthy (strip (Book.title book)) = true ->
   lower term = lower (Book.title book) ->
   In book (result (search_books_in_catalog term "title") all_books)) /\
  (truthy (strip (Book.author book)) = true ->
   lower term = lower (Book.author book) ->
   In book (result (search_books_in_catalog term "author") all_books)).
Proof.
  intros I.
  assert (Found : forall field : string,
             truthy (strip field) = true -> lower term = lower field ->
             negb (truthy term) || negb (truthy (strip term)) = false /\
             contains (lower (strip term)) (lower field) = true).
  { intros field T L.
    assert (E : lower (strip term) = lower (strip field)).
    { rewrite !lower_strip, L. reflexivity. }
    rewrite search_blank_test, E, lower_truthy, T. split; [reflexivity |].
    apply contains_lower, contains_strip. }
  split; intros T L; destruct (Found _ T L) as [B C];
    unfold search_books_in_catalog; rewrite B; cbn [result String.eqb Ascii.eqb Bool.eqb];
    apply filter_In; split; assumption.
Qed.

(** X2.  A book whose ISBN has no white space around it is found by an
    ISBN search for that very ISBN exactly when the ISBN has no capital
    letter in it: the term is lower-cased, the ISBN of the book is not. *)
Theorem search_finds_own_isbn (all_books : list Book.t) (book : Book.t) :
  In book all_books ->
  truthy (Book.isbn book) = true ->
  strip (Book.isbn book) = Book.isbn book ->
  (In book (result (search_books_in_catalog (Book.isbn book) "isbn") all_books)
   <-> lower (Book.isbn book) = Book.isbn book).
Proof.
  intros I T S. unfold search_books_in_catalog.
  rewrite S, T. cbn [negb orb result String.eqb Ascii.eqb Bool.eqb].
  rewrite filter_In. split.
  - intros [_ C]. apply contains_same_length; [exact C | apply lower_length].
  - intros L. split; [exact I |]. rewrite L. apply prefix_contains, prefix_refl.
Qed.

(** X3.  The search depends on its term only through the stripped,
    lower-cased term: two terms that agree after that are the same search,
    whatever the search type. *)
Theorem search_term_normalised (term term' search_type : string) :
  lower (strip term) = lower (strip term') ->
  search_books_in_catalog term search_type = search_books_in_catalog term' search_type.
Proof.
  intros E. unfold search_books_in_catalog.
  rewrite !search_blank_test, E. reflexivity.
Qed.

(** *** Adding a book, once more *)

(** X4.  White space around the title and the author never matters: adding
    a book under the stripped title and author is the same program as
    adding it under the title and author as given. *)
Theorem add_book_ignores_surrounding_space (title author isbn : string)
    (total_copies : Z) :
  add_book_to_catalog (strip title) (strip author) isbn total_copies =
  add_book_to_catalog title author isbn total_copies.
Proof.
  assert (B : forall s, negb (truthy s) || negb (truthy (strip s))
                        = negb (truthy (strip s))).
  { intros s. destruct (truthy s) eqn:T; [reflexivity |].
    rewrite (strip_empty_falsy s T). reflexivity. }
  unfold add_book_to_catalog. rewrite !strip_idem, !B, !orb_diag. reflexivity.
Qed.

(** The sample book is found under its title in capitals and under its
    author in small letters. *)
Lemma search_finds_own_title_and_author_witness :
  In Store.hunger_games
     (result (search_books_in_catalog "THE HUNGER GAMES" "title") [Store.hunger_games]) /\
  In Store.hunger_games
     (result (search_books_in_catalog " the hunger games " "title") [Store.hunger_games]).
Proof.
  split.
  - destruct (search_finds_own_title_and_author [Store.hunger_games] Store.hunger_games
                "THE HUNGER GAMES") as [Title _]; [left; reflexivity |].
    apply Title; vm_compute; reflexivity.
  - vm_compute. left. reflexivity.
Defined.

(** A book registered under an ISBN that ends in a capital X is not found
    by a search for that ISBN. *)
Lemma search_finds_own_isbn_witness :
  let book := Book.make 7 "Book" "Author" "123456789012X" 1 1 in
  ~ In book (result (search_books_in_catalog "123456789012X" "isbn")
                    [Store.hunger_games; book]).
Proof.
  intros book F.
  apply (search_finds_own_isbn [Store.hunger_games; book] book) in F.
  - vm_compute in F. discriminate F.
  - right. left. reflexivity.
  - vm_compute. reflexivity.
  - vm_compute. reflexivity.
Defined.

Lemma search_term_normalised_witness :
  search_books_in_catalog "  Hunger " "title" = search_books_in_catalog "hunger" "title".
Proof.
  apply (search_term_normalised "  Hunger " "hunger" "title"). vm_compute. reflexivity.
Defined.

(** *** The fee calculator, once more *)

Lemma half_dollars_bounds (d : Z) : 0 <= d -> 0 <= half_dollars d <= 30.
Proof.
  intros D. unfold half_dollars. destruct (Z.leb_spec d 7); lia.
Qed.

Lemma half_dollars_monotone (d d' : Z) : d <= d' -> half_dollars d <= half_dollars d'.
Proof.
  intros D. unfold half_dollars.
  destruct (Z.leb_spec d 7), (Z.leb_spec d' 7); lia.
Qed.

Lemma half_dollars_increasing (d d' : Z) :
  0 <= d -> d < d' -> d' <= 19 -> half_dollars d < half_dollars d'.
Proof.
  intros D L U. unfold half_dollars.
  destruct (Z.leb_spec d 7), (Z.leb_spec d' 7); lia.
Qed.

(** Rounding to cents leaves a whole number of half dollars alone. *)
Lemma round2_half_dollars (q : Q) (k : Z) :
  q == inject_Z k * 0.50 -> round2 q == q.
Proof.
  intros E. unfold round2.
  rewrite (round_half_even_integer _ (50 * k)).
  - rewrite E. q_arith.
  - rewrite E. q_arith.
Qed.

(** The cap is reached exactly from the nineteenth day on. *)
Lemma capped_fee_reaches_cap (d : Z) :
  0 <= d -> Qle_bool 15.00 (Qmin (tiered_fee d) 15.00) = (19 <=? d).
Proof.
  intros D.
  assert (E : Qle_bool 15.00 (inject_Z (half_dollars d) * 0.50) = (19 <=? d)).
  { unfold half_dollars.
    destruct (Z.leb_spec 19 d) as [H | H].
    - apply Qle_bool_iff. destruct (Z.leb_spec d 7); [lia |].
      rewrite Z.min_r by lia. q_arith.
    - destruct (Qle_bool 15.00 _) eqn:E; [| reflexivity].
      apply Qle_bool_iff in E. exfalso. revert E.
      destruct (Z.leb_spec d 7); rewrite Z.min_l by lia; q_arith. }
  rewrite <- E.
  destruct (Qle_bool 15.00 (Qmin (tiered_fee d) 15.00)) eqn:A;
    destruct (Qle_bool 15.00 (inject_Z (half_dollars d) * 0.50)) eqn:B;
    try reflexivity.
  - apply Qle_bool_iff in A. rewrite capped_fee_half_dollars in A.
    apply Qle_bool_iff in A. congruence.
  - apply Qle_bool_iff in B. rewrite <- capped_fee_half_dollars in B.
    apply Qle_bool_iff in B. congruence.
Qed.

Section LateFeeValue.

Context {W : Type} (h : Handler W).

Variable w : W.
Variable patron_id : string.
Variable book_id : Z.

Let borrowed := answer h (get_patron_borrowed_books patron_id) w.
Let w1 := after h (get_patron_borrowed_books patron_id) w.
Let now := answer h datetime_now w1.

(** The assessment of a record that was found, by the clock. *)
Lemma late_fee_of_record (record : Borrowed.t) :
  find (fun b => Borrowed.book_id b =? book_id) borrowed = Some record ->
  exists a,
    value (run h (calculate_late_fee_for_book patron_id book_id) w) = Returns a /\
    days_overdue a =
      (if now <=? Borrowed.due_date record then 0
       else days (now - Borrowed.due_date record)) /\
    fee_amount a ==
      inject_Z (if now <=? Borrowed.due_date record then 0
                else half_dollars (days (now - Borrowed.due_date record))) * 0.50.
Proof.
  intros F. destruct (Z.leb_spec now (Borrowed.due_date record)) as [L | L].
  - rewrite (run_late_fee_not_overdue h w patron_id book_id record F L).
    eexists. split; [reflexivity |]. split; reflexivity.
  - rewrite (run_late_fee_overdue h w patron_id book_id record F L).
    fold borrowed w1 now.
    eexists. split; [reflexivity |]. split; [reflexivity |].
    cbn [fee_amount]. rewrite round2_capped_fee. apply capped_fee_half_dollars.
Qed.

(** Every assessment is a whole number of half dollars, thirty at most. *)
Lemma late_fee_half_dollars :
  exists a k,
    value (run h (calculate_late_fee_for_book patron_id book_id) w) = Returns a /\
    0 <= k <= 30 /\ fee_amount a == inject_Z k * 0.50 /\ 0 <= days_overdue a.
Proof.
  destruct (find (fun b => Borrowed.book_id b =? book_id) borrowed) as [record |] eqn:F.
  - destruct (late_fee_of_record record F) as [a [V [D E]]].
    exists a. eexists. split; [exact V |]. split; [| split; [exact E |]].
    + destruct (Z.leb_spec now (Borrowed.due_date record)); [lia |].
      apply half_dollars_bounds, days_nonneg. lia.
    + rewrite D. destruct (Z.leb_spec now (Borrowed.due_date record)); [lia |].
      apply days_nonneg. lia.
  - rewrite (run_late_fee_no_record h w patron_id book_id F).
    eexists. exists 0. split; [reflexivity |]. split; [lia |].
    split; [reflexivity | cbn; lia].
Qed.

(** X5.  A book that is overdue by less than one day is assessed as
    zero days and a fee of zero, under the status of a late fee; and
    [pay_late_fees] then refuses the payment without contacting the payment
    service. *)
Theorem overdue_by_less_than_a_day (record : Borrowed.t)
    (payment_gateway : option Gateway) :
  find (fun b => Borrowed.book_id b =? book_id) borrowed = Some record ->
  Borrowed.due_date record < now < Borrowed.due_date record + us_per_day ->
  (exists a,
     value (run h (calculate_late_fee_for_book patron_id book_id) w) = Returns a /\
     fee_amount a == 0 /\ days_overdue a = 0 /\
     status a = "Late fee: $0.00 for 0 days overdue") /\
  (invalid_patron_id patron_id = false ->
   let r := run h (pay_late_fees patron_id book_id payment_gateway) w in
   value r = Returns (false, "No late fees to pay for this book.", None) /\
   filter is_gateway_call (calls r) = []).
Proof.
  intros F [L U].
  assert (D : days (now - Borrowed.due_date record) = 0).
  { apply days_floor. unfold us_per_day in *. lia. }
  pose proof (run_late_fee_overdue h w patron_id book_id record F L) as R.
  fold borrowed w1 now in R. cbv zeta in R. rewrite D in R.
  split.
  - rewrite R. eexists. split; [reflexivity |]. repeat split; reflexivity.
  - intros V r. subst r. unfold pay_late_fees. rewrite V, run_bind, R.
    cbn. split; reflexivity.
Qed.

(** X6.  The status of an overdue book states the fee in dollars and
    cents, which end in .00 or .50, and the days; it says that the maximum
    has been applied exactly from the nineteenth day on. *)
Theorem late_fee_status_text (record : Borrowed.t) (d : Z) :
  find (fun b => Borrowed.book_id b =? book_id) borrowed = Some record ->
  Borrowed.due_date record < now ->
  d * us_per_day <= now - Borrowed.due_date record < (d + 1) * us_per_day ->
  exists a,
    value (run h (calculate_late_fee_for_book patron_id book_id) w) = Returns a /\
    status a =
      "Late fee: $" ++ str_int (half_dollars d / 2)
        ++ (if Z.even (half_dollars d) then ".00" else ".50")
        ++ " for " ++ str_int d ++ " days overdue"
        ++ (if 19 <=? d then " (maximum fee applied)" else EmptyString).
Proof.
  intros F L Hd.
  rewrite (run_late_fee_overdue h w patron_id book_id record F L).
  fold borrowed w1 now. rewrite (days_floor _ d Hd).
  assert (D0 : 0 <= d) by (unfold us_per_day in Hd; lia).
  pose proof (half_dollars_bounds d D0) as B.
  eexists. split; [reflexivity |]. cbn [status].
  assert (Fm : format_2f (Qmin (tiered_fee d) 15.00) =
               str_int (half_dollars d / 2)
                 ++ (if Z.even (half_dollars d) then ".00" else ".50")).
  { unfold format_2f.
    rewrite (round_half_even_integer _ (50 * half_dollars d))
      by (rewrite capped_fee_half_dollars; q_arith).
    assert (N : (50 * half_dollars d <? 0) = false) by (apply Z.ltb_ge; lia).
    rewrite N, Z.abs_eq by lia.
    replace (50 * half_dollars d / 100) with (half_dollars d / 2)
      by (change 100 with (50 * 2); rewrite Z.div_mul_cancel_l; lia).
    replace (50 * half_dollars d mod 100) with (50 * (half_dollars d mod 2))
      by (change 100 with (50 * 2); rewrite Z.mul_mod_distr_l; lia).
    rewrite Zmod_even. destruct (Z.even (half_dollars d)); reflexivity. }
  pose proof (capped_fee_reaches_cap d D0) as C.
  rewrite C, Fm.
  destruct (19 <=? d); rewrite ?append_assoc; cbn [append];
    rewrite ?append_assoc; reflexivity.
Qed.

End LateFeeValue.

(** X7.  For one borrow record the assessment never goes down as time
    passes: at a later reading of the clock neither the days nor the fee
    are smaller, and the fee is larger whenever the day count has grown
    and is at most 19. *)
Theorem late_fee_monotone {W : Type} (h : Handler W) (w w' : W)
    (patron_id : string) (book_id : Z) (record record' : Borrowed.t) (a a' : LateFee) :
  find (fun b => Borrowed.book_id b =? book_id)
       (answer h (get_patron_borrowed_books patron_id) w) = Some record ->
  find (fun b => Borrowed.book_id b =? book_id)
       (answer h (get_patron_borrowed_books patron_id) w') = Some record' ->
  Borrowed.due_date record = Borrowed.due_date record' ->
  answer h datetime_now (after h (get_patron_borrowed_books patron_id) w)
    <= answer h datetime_now (after h (get_patron_borrowed_books patron_id) w') ->
  value (run h (calculate_late_fee_for_book patron_id book_id) w) = Returns a ->
  value (run h (calculate_late_fee_for_book patron_id book_id) w') = Returns a' ->
  days_overdue a <= days_overdue a' /\
  (fee_amount a <= fee_amount a')%Q /\
  (days_overdue a < days_overdue a' <= 19 -> (fee_amount a < fee_amount a')%Q).
Proof.
  intros F F' Due T V V'.
  destruct (late_fee_of_record h w patron_id book_id record F) as [b [Vb [D E]]].
  destruct (late_fee_of_record h w' patron_id book_id record' F') as [b' [Vb' [D' E']]].
  rewrite V in Vb. injection Vb as <-. rewrite V' in Vb'. injection Vb' as <-.
  rewrite <- Due in D', E'.
  set (now := answer h datetime_now (after h (get_patron_borrowed_books patron_id) w)) in *.
  set (now' := answer h datetime_now (after h (get_patron_borrowed_books patron_id) w')) in *.
  set (due := Borrowed.due_date record) in *.
  assert (M : days (now - due) <= days (now' - due)).
  { unfold days. apply Z.div_le_mono; [reflexivity | lia]. }
  rewrite E, E', D, D'.
  destruct (Z.leb_spec now due) as [L | L], (Z.leb_spec now' due) as [L' | L'];
    try lia.
  - repeat split; [lia | q_arith | intros; lia].
  - assert (P : 0 <= days (now' - due)) by (apply days_nonneg; lia).
    pose proof (half_dollars_bounds _ P) as B.
    repeat split; [exact P | q_arith |].
    intros [Lt U].
    pose proof (half_dollars_increasing 0 _ (Z.le_refl 0) Lt U) as I.
    change (half_dollars 0) with 0 in I. q_arith.
  - assert (P : 0 <= days (now - due)) by (apply days_nonneg; lia).
    pose proof (half_dollars_monotone _ _ M) as Mo.
    repeat split; [exact M | q_arith |].
    intros [Lt U]. pose proof (half_dollars_increasing _ _ P Lt U) as I. q_arith.
Qed.

(** A borrow that is three hours past its due date. *)
Lemma overdue_by_less_than_a_day_witness :
  let w := Store.library (Store.jan15 + 3 * 3600000000) in
  (exists a,
     value (run Store.handler (calculate_late_fee_for_book "123456" 4) w) = Returns a /\
     fee_amount a == 0 /\ days_overdue a = 0 /\
     status a = "Late fee: $0.00 for 0 days overdue") /\
  value (run Store.handler (pay_late_fees "123456" 4 None) w)
    = Returns (false, "No late fees to pay for this book.", None).
Proof.
  intros w.
  destruct (overdue_by_less_than_a_day Store.handler w "123456" 4
              (Store.borrowed_entry w
                 {| Store.patron_id := "123456"; Store.book_id := 4;
                    Store.borrow_date := Store.jan15 - timedelta_days 14;
                    Store.due_date := Store.jan15; Store.return_date := None |})
              None) as [Fee Pay].
  - reflexivity.
  - vm_compute. split; reflexivity.
  - split; [exact Fee |]. destruct Pay as [Value _]; [reflexivity | exact Value].
Defined.

(** The borrow on its eighth overdue day: four dollars and a half. *)
Lemma late_fee_status_text_witness :
  exists a,
    value (run Store.handler (calculate_late_fee_for_book "123456" 4)
               (Store.library (Store.jan15 + timedelta_days 8 + 1)))
      = Returns a /\
    status a = "Late fee: $4.50 for 8 days overdue".
Proof.
  destruct (late_fee_status_text Store.handler
              (Store.library (Store.jan15 + timedelta_days 8 + 1)) "123456" 4
              (Store.borrowed_entry
                 (Store.library (Store.jan15 + timedelta_days 8 + 1))
                 {| Store.patron_id := "123456"; Store.book_id := 4;
                    Store.borrow_date := Store.jan15 - timedelta_days 14;
                    Store.due_date := Store.jan15; Store.return_date := None |})
              8) as [a [V S]].
  - reflexivity.
  - vm_compute. reflexivity.
  - vm_compute. split; [discriminate | reflexivity].
  - exists a. split; [exact V | exact S].
Defined.

(** The borrow on its seventh and on its eighth overdue day. *)
Lemma late_fee_monotone_witness :
  exists a a',
    value (run Store.handler (calculate_late_fee_for_book "123456" 4)
               (Store.library (Store.jan15 + timedelta_days 7))) = Returns a /\
    value (run Store.handler (calculate_late_fee_for_book "123456" 4)
               (Store.library (Store.jan15 + timedelta_days 8))) = Returns a' /\
    (fee_amount a < fee_amount a')%Q.
Proof.
  destruct (late_fee_returns Store.handler
              (Store.library (Store.jan15 + timedelta_days 7)) "123456" 4) as [a V].
  destruct (late_fee_returns Store.handler
              (Store.library (Store.jan15 + timedelta_days 8)) "123456" 4) as [a' V'].
  exists a, a'. split; [exact V |]. split; [exact V' |].
  destruct (late_fee_monotone Store.handler
              (Store.library (Store.jan15 + timedelta_days 7))
              (Store.library (Store.jan15 + timedelta_days 8)) "123456" 4
              (Store.borrowed_entry (Store.library (Store.jan15 + timedelta_days 7))
                 {| Store.patron_id := "123456"; Store.book_id := 4;
                    Store.borrow_date := Store.jan15 - timedelta_days 14;
                    Store.due_date := Store.jan15; Store.return_date := None |})
              (Store.borrowed_entry (Store.library (Store.jan15 + timedelta_days 8))
                 {| Store.patron_id := "123456"; Store.book_id := 4;
                    Store.borrow_date := Store.jan15 - timedelta_days 14;
                    Store.due_date := Store.jan15; Store.return_date := None |})
              a a') as [_ [_ Strict]];
    [reflexivity | reflexivity | reflexivity | vm_compute; discriminate
    | exact V | exact V' |].
  apply Strict. vm_compute in V. vm_compute in V'.
  injection V as <-. injection V' as <-.
  vm_compute. split; [reflexivity | discriminate].
Defined.

(** *** Borrowing and returning, once more *)

Section BorrowWrites.

Context {W : Type} (h : Handler W).

Variable w : W.
Variable patron_id : string.
Variable book_id : Z.

Let found := answer h (get_book_by_id book_id) w.
Let w1 := after h (get_book_by_id book_id) w.
Let current_borrowed := answer h (get_patron_borrow_count patron_id) w1.
Let w2 := after h (get_patron_borrow_count patron_id) w1.
Let borrow_date := answer h datetime_now w2.
Let w3 := after h datetime_now w2.
Let record := insert_borrow_record patron_id book_id borrow_date
                                   (borrow_date + timedelta_days 14).
Let inserted := answer h record w3.
Let w4 := after h record w3.
Let decrement := update_book_availability book_id (-1).
Let updated := answer h decrement w4.

(** A borrow that passes its four checks. *)
Lemma run_borrow_book (book : Book.t) :
  invalid_patron_id patron_id = false ->
  found = Some book ->
  0 < Book.available_copies book ->
  current_borrowed <= 5 ->
  run h (borrow_book_by_patron patron_id book_id) w =
  {| value :=
       Returns
         (if inserted then
            if updated then
              (true, "Successfully borrowed " ++ dquote ++ Book.title book ++ dquote
                       ++ ". Due date: "
                       ++ strftime_ymd (borrow_date + timedelta_days 14) ++ ".")
            else (false, "Database error occurred while updating book availability.")
          else (false, "Database error occurred while creating borrow record."));
     world := if inserted then after h decrement w4 else w4;
     calls := [Called (get_book_by_id book_id);
               Called (get_patron_borrow_count patron_id);
               Called datetime_now; Called record]
              ++ (if inserted then [Called decrement] else []) |}.
Proof.
  intros V F A C.
  unfold borrow_book_by_patron, call. rewrite V. cbn [bind].
  rewrite run_vis. fold found w1. rewrite F.
  apply Z.leb_gt in A. rewrite A. cbn [bind].
  rewrite run_vis. fold current_borrowed w2.
  apply Z.ltb_ge in C. rewrite C. cbn [bind].
  rewrite run_vis. fold borrow_date w3.
  rewrite run_vis. fold record inserted w4.
  destruct inserted; cbn [negb bind]; [| reflexivity].
  rewrite run_vis. fold decrement updated.
  destruct updated; reflexivity.
Qed.

(** X8.  A borrow that fails one of its checks (the patron id, the book,
    its availability, the limit) returns a failure and writes nothing. *)
Theorem borrow_rejected_writes_nothing :
  invalid_patron_id patron_id = true \/
  found = None \/
  (exists book, found = Some book /\
                (Book.available_copies book <= 0 \/ 5 < current_borrowed)) ->
  let r := run h (borrow_book_by_patron patron_id book_id) w in
  (exists message, value r = Returns (false, message)) /\
  filter is_write (calls r) = [].
Proof.
  intros H r. subst r. unfold borrow_book_by_patron, call.
  destruct (invalid_patron_id patron_id) eqn:V.
  { cbn. split; eauto. }
  cbn [bind]. rewrite run_vis. fold found w1.
  destruct found as [book |] eqn:F.
  2:{ cbn. split; eauto. }
  destruct (Z.leb_spec (Book.available_copies book) 0) as [A | A].
  { cbn. split; eauto. }
  cbn [bind]. rewrite run_vis. fold current_borrowed w2.
  destruct (Z.ltb_spec 5 current_borrowed) as [C | C].
  { cbn. split; eauto. }
  exfalso. destruct H as [H | [H | [book' [E [H | H]]]]];
    try discriminate; injection E as <-; lia.
Qed.

(** X9.  A borrow that passes its checks inserts the borrow record first
    and lowers the availability by one only after the insert succeeded.
    When the insert fails nothing else is written.  When the insert
    succeeds and the availability write fails, the borrow is reported as
    failed and nothing is written after it: the inserted record stays. *)
Theorem borrow_write_sequence (book : Book.t) :
  invalid_patron_id patron_id = false ->
  found = Some book ->
  0 < Book.available_copies book ->
  current_borrowed <= 5 ->
  let r := run h (borrow_book_by_patron patron_id book_id) w in
  filter is_write (calls r) =
    Called (insert_borrow_record patron_id book_id borrow_date
                                 (borrow_date + timedelta_days 14))
    :: (if inserted then [Called (update_book_availability book_id (-1))] else []) /\
  (exists message, value r = Returns (inserted && updated, message)) /\
  (inserted = true -> updated = false ->
   value r = Returns (false, "Database error occurred while updating book availability.") /\
   world r = after h (update_book_availability book_id (-1)) w4).
Proof.
  intros V F A C r. subst r. rewrite (run_borrow_book book V F A C).
  cbn [value calls world]. fold record decrement.
  split; [| split].
  - destruct inserted; reflexivity.
  - destruct inserted, updated; eexists; reflexivity.
  - intros I U. rewrite I, U. split; reflexivity.
Qed.

End BorrowWrites.

Section ReturnWrites.

Context {W : Type} (h : Handler W).

Variable w : W.
Variable patron_id : string.
Variable book_id : Z.

Let found := answer h (get_book_by_id book_id) w.
Let w1 := after h (get_book_by_id book_id) w.
Let borrowed := answer h (get_patron_borrowed_books patron_id) w1.
Let w2 := after h (get_patron_borrowed_books patron_id) w1.
Let return_date := answer h datetime_now w2.
Let w3 := after h datetime_now w2.
Let close := update_borrow_record_return_date patron_id book_id return_date.

(** X10.  A return is refused, with nothing written, when the patron id
    is malformed, when the book does not exist, and when no entry of the
    patron's borrowed books has the book id.  Otherwise exactly two writes
    are made, the return date and then the availability, and the return
    succeeds exactly when both writes do. *)
Theorem return_writes :
  let r := run h (return_book_by_patron patron_id book_id) w in
  (invalid_patron_id patron_id = true \/ found = None \/
   (forall b, In b borrowed -> Borrowed.book_id b <> book_id) ->
   (exists message, value r = Returns (false, message)) /\
   filter is_write (calls r) = []) /\
  (invalid_patron_id patron_id = false -> found <> None ->
   (exists b, In b borrowed /\ Borrowed.book_id b = book_id) ->
   filter is_write (calls r) =
     [Called close; Called (update_book_availability book_id 4)] /\
   exists message,
     value r =
       Returns (answer h close w3
                && answer h (update_book_availability book_id 4) (after h close w3),
                message)).
Proof.
  intros r. subst r. split.
  - intros H. unfold return_book_by_patron, call.
    destruct (invalid_patron_id patron_id) eqn:V.
    { cbn. split; eauto. }
    cbn [bind]. rewrite run_vis. fold found w1.
    destruct found as [book |] eqn:F.
    2:{ cbn. split; eauto. }
    cbn [bind]. rewrite run_vis. fold borrowed w2.
    destruct (existsb (fun b => Borrowed.book_id b =? book_id) borrowed) eqn:B.
    2:{ cbn. split; eauto. }
    exfalso. apply existsb_exists in B. destruct B as [b [I E]].
    destruct H as [H | [H | H]]; try discriminate.
    apply (H b I). lia.
  - intros V F [b [I E]].
    destruct found as [book |] eqn:Fb; [| destruct (F eq_refl)].
    assert (B : existsb (fun b => Borrowed.book_id b =? book_id) borrowed = true).
    { apply existsb_exists. exists b. split; [exact I | lia]. }
    rewrite (run_return_book h w patron_id book_id book V Fb B).
    fold found w1 borrowed w2 return_date w3 close. cbn [value calls].
    split; [reflexivity |].
    destruct (answer h close w3 && _); eexists; reflexivity.
Qed.

End ReturnWrites.

(** The book is out of copies: the borrow is refused and nothing is
    written. *)
Lemma borrow_rejected_writes_nothing_witness :
  let w := Store.change_availability 4 (-2) (Store.library Store.jan15) in
  let r := run Store.handler (borrow_book_by_patron "654321" 4) w in
  value r = Returns (false, "This book is currently not available.") /\
  filter is_write (calls r) = [].
Proof.
  intros w r.
  destruct (borrow_rejected_writes_nothing Store.handler w "654321" 4) as [_ Writes].
  - right. right. exists (Book.make 4 "The Hunger Games" "Suzanne Collins"
                                    "9780439023528" 3 0).
    split; [reflexivity | left; vm_compute; discriminate].
  - split; [reflexivity | exact Writes].
Defined.

(** The storage inserts the borrow record and then fails to lower the
    availability: the borrow is reported as failed, yet patron 654321 holds
    the book afterwards. *)
Lemma borrow_write_sequence_witness :
  let w := Store.with_writes [true; false] (Store.library Store.jan15) in
  let r := run Store.handler (borrow_book_by_patron "654321" 4) w in
  value r = Returns (false, "Database error occurred while updating book availability.") /\
  answer Store.handler (get_patron_borrow_count "654321") w = 0 /\
  answer Store.handler (get_patron_borrow_count "654321") (world r) = 1.
Proof.
  intros w r.
  destruct (borrow_write_sequence Store.handler w "654321" 4 Store.hunger_games)
    as [_ [_ Partial]]; try reflexivity.
  - vm_compute. discriminate.
  - destruct Partial as [Value _]; try reflexivity.
    split; [exact Value |]. split; reflexivity.
Defined.

(** Patron 654321 has not borrowed book 4 and cannot return it; patron
    123456 has and can. *)
Lemma return_writes_witness :
  filter is_write
    (calls (run Store.handler (return_book_by_patron "654321" 4)
                (Store.library Store.jan15))) = [] /\
  List.length
    (filter is_write
       (calls (run Store.handler (return_book_by_patron "123456" 4)
                   (Store.library Store.jan15)))) = 2%nat.
Proof.
  split.
  - destruct (return_writes Store.handler (Store.library Store.jan15) "654321" 4)
      as [Refused _].
    destruct Refused as [_ Writes]; [| exact Writes].
    right. right. intros b I. destruct I.
  - destruct (return_writes Store.handler (Store.library Store.jan15) "123456" 4)
      as [_ Accepted].
    destruct Accepted as [Writes _].
    + reflexivity.
    + discriminate.
    + eexists. split; [left; reflexivity | reflexivity].
    + rewrite Writes. reflexivity.
Defined.

(** *** Paying and refunding, once more *)

Section PaymentShape.

Context {W : Type} (h : Handler W).

Variable w : W.
Variable patron_id : string.
Variable book_id : Z.

Let assessed := run h (calculate_late_fee_for_book patron_id book_id) w.
Let found := answer h (get_book_by_id book_id) (world assessed).
Let w2 := after h (get_book_by_id book_id) (world assessed).

(** The three ways a payment can go: refused at a check, with at most the
    reads of the fee calculator and of the book; or charged. *)
Lemma pay_refused_or_charged (payment_gateway : option Gateway) :
  let r := run h (pay_late_fees patron_id book_id payment_gateway) w in
  (exists message,
     value r = Returns (false, message, None) /\
     count_calls is_process_payment (calls r) = 0%nat /\
     count_calls is_new_gateway (calls r) = 0%nat /\
     map charged_amount (calls r) = map (fun _ => None) (calls r)) \/
  (exists a book,
     invalid_patron_id patron_id = false /\
     value assessed = Returns a /\
     Qle_bool (fee_amount a) 0 = false /\
     found = Some book /\
     count_calls is_process_payment (calls r) = 1%nat /\
     count_calls is_new_gateway (calls r)
       = match payment_gateway with Some _ => 0%nat | None => 1%nat end /\
     filter (fun c => is_some (charged_amount c)) (calls r)
       = [Called (process_payment (gateway_in h w2 payment_gateway) patron_id
                    (fee_amount a) ("Late fees for '" ++ Book.title book ++ "'"))] /\
     value r =
       match answer h (process_payment (gateway_in h w2 payment_gateway) patron_id
                         (fee_amount a) ("Late fees for '" ++ Book.title book ++ "'"))
                    (world_with_gateway h w2 payment_gateway) with
       | Returns (true, transaction_id, message) =>
           Returns (true, "Payment successful! " ++ message, Some transaction_id)
       | Returns (false, _, message) =>
           Returns (false, "Payment failed: " ++ message, None)
       | Raises (Exception text) =>
           Returns (false, "Payment processing error: " ++ text, None)
       | Raises (ExceptionStrRaises raised) => Raises raised
       | Raises (BaseException name) => Raises (BaseException name)
       end).
Proof.
  intros r. subst r.
  destruct (late_fee_returns h w patron_id book_id) as [a A]. fold assessed in A.
  assert (Refused :
            invalid_patron_id patron_id = true \/ Qle_bool (fee_amount a) 0 = true
            \/ found = None ->
            exists message,
              value (run h (pay_late_fees patron_id book_id payment_gateway) w)
                = Returns (false, message, None) /\
              count_calls is_process_payment
                (calls (run h (pay_late_fees patron_id book_id payment_gateway) w)) = 0%nat /\
              count_calls is_new_gateway
                (calls (run h (pay_late_fees patron_id book_id payment_gateway) w)) = 0%nat /\
              map charged_amount
                  (calls (run h (pay_late_fees patron_id book_id payment_gateway) w))
              = map (fun _ => None)
                    (calls (run h (pay_late_fees patron_id book_id payment_gateway) w))).
  { intros H.
    destruct (run_pay_refused h w patron_id book_id payment_gateway a A H)
      as [message [R C]].
    exists message. split; [exact R |]. fold assessed in C.
    destruct C as [C | [C | C]]; rewrite C; unfold count_calls;
      rewrite ?filter_app, ?map_app;
      destruct (assessed_calls h w patron_id book_id) as [Q | Q];
      fold assessed in Q; rewrite ?Q; repeat split; reflexivity. }
  destruct (invalid_patron_id patron_id) eqn:V; [left; apply Refused; left; reflexivity |].
  destruct (Qle_bool (fee_amount a) 0) eqn:N;
    [left; apply Refused; right; left; reflexivity |].
  destruct found as [book |] eqn:F; [| left; apply Refused; right; right; reflexivity].
  right. exists a, book.
  split; [reflexivity |]. split; [exact A |]. split; [exact N |].
  split; [reflexivity |].
  rewrite (run_pay_charged h w patron_id book_id payment_gateway a book V A N F).
  fold assessed w2. cbn [value calls]. unfold count_calls. rewrite !filter_app.
  destruct (assessed_calls h w patron_id book_id) as [Q | Q];
    fold assessed in Q; rewrite Q; destruct payment_gateway; repeat split; reflexivity.
Qed.

(** X11.  Whatever the collaborators do, the gateway is charged at most
    once.  In a triple that [pay_late_fees] returns a transaction id is
    present exactly when the payment succeeded, and a success comes after
    exactly one charge; and the function raises only out of that one
    charge. *)
Theorem pay_result_shape (payment_gateway : option Gateway) :
  let r := run h (pay_late_fees patron_id book_id payment_gateway) w in
  (count_calls is_process_payment (calls r) <= 1)%nat /\
  (forall ok message transaction,
     value r = Returns (ok, message, transaction) ->
     (transaction <> None <-> ok = true) /\
     (ok = true -> count_calls is_process_payment (calls r) = 1%nat)) /\
  (forall x, value r = Raises x -> count_calls is_process_payment (calls r) = 1%nat).
Proof.
  intros r. subst r.
  destruct (pay_refused_or_charged payment_gateway)
    as [[refusal [R [P _]]] | [a [book [_ [_ [_ [_ [P [_ [_ R]]]]]]]]]].
  - rewrite R, P. split; [lia |]. split.
    + intros ok message transaction E. injection E as <- <- <-.
      split; [| discriminate]. split; [intros N; destruct (N eq_refl) | discriminate].
    + intros x E. discriminate E.
  - rewrite P. split; [lia |]. split.
    + intros ok message transaction E. rewrite R in E.
      destruct (answer h (process_payment _ _ _ _) _)
        as [[[[|] transaction_id] text] | [text | raised | name]];
        try discriminate E; injection E as <- <- <-;
        (split; [split; [try reflexivity; intros N; try destruct (N eq_refl)
                        | try discriminate; intros _; discriminate]
                | reflexivity]).
    + intros x _. reflexivity.
Qed.

(** X12.  [pay_late_fees] never constructs a gateway when the caller
    passed one; when the caller passed none it constructs one exactly when
    it goes on to charge. *)
Theorem pay_constructs_gateway_to_charge (payment_gateway : option Gateway) :
  let r := run h (pay_late_fees patron_id book_id payment_gateway) w in
  count_calls is_new_gateway (calls r) =
    match payment_gateway with
    | Some _ => 0%nat
    | None => count_calls is_process_payment (calls r)
    end.
Proof.
  intros r. subst r.
  destruct (pay_refused_or_charged payment_gateway)
    as [[refusal [_ [P [G _]]]] | [a [book [_ [_ [_ [_ [P [G _]]]]]]]]];
    rewrite G, P; destruct payment_gateway; reflexivity.
Qed.

(** X13.  Every amount [pay_late_fees] asks the gateway to charge is the
    fee the calculator has just assessed: more than nothing, 15.00 at
    most, and a whole number of half dollars. *)
Theorem pay_charges_the_fee (payment_gateway : option Gateway) (amount : Q) :
  In (Some amount)
     (map charged_amount
          (calls (run h (pay_late_fees patron_id book_id payment_gateway) w))) ->
  (exists a, value assessed = Returns a /\ amount = fee_amount a) /\
  (0 < amount)%Q /\ (amount <= 15.00)%Q /\
  exists k, amount == inject_Z k * 0.50.
Proof.
  intros I.
  destruct (pay_refused_or_charged payment_gateway)
    as [[refusal [_ [_ [_ M]]]] | [a [book [_ [A [N [_ [_ [_ [C _]]]]]]]]]].
  - exfalso. rewrite M in I. apply in_map_iff in I.
    destruct I as [c [E _]]. discriminate E.
  - apply in_map_iff in I. destruct I as [c [E I]].
    assert (J : In c (filter (fun c => is_some (charged_amount c))
                             (calls (run h (pay_late_fees patron_id book_id
                                                          payment_gateway) w)))).
    { apply filter_In. split; [exact I | rewrite E; reflexivity]. }
    rewrite C in J. destruct J as [J | []]. subst c. cbn in E. injection E as <-.
    destruct (late_fee_half_dollars h w patron_id book_id) as [a' [k [A' [K [Q _]]]]].
    fold assessed in A'. rewrite A in A'. injection A' as <-.
    split; [exists a; split; [exact A | reflexivity] |].
    split; [| split; [| exists k; exact Q]].
    + apply Qnot_le_lt. intros L. apply Qle_bool_iff in L. congruence.
    + rewrite Q. q_arith.
Qed.

(** X14.  The fee of a successful payment can always be refunded as far
    as its amount goes: a refund of that fee on the transaction id the
    payment returned reaches the gateway exactly when the id starts with
    [txn_], whatever gateway issued it. *)
Theorem paid_fee_is_refundable (payment_gateway refund_gateway : option Gateway)
    (w' : W) (message transaction : string) (a : LateFee) :
  value (run h (pay_late_fees patron_id book_id payment_gateway) w)
    = Returns (true, message, Some transaction) ->
  value assessed = Returns a ->
  count_calls is_refund_payment
    (calls (run h (refund_late_fee_payment transaction (fee_amount a) refund_gateway) w'))
  = if startswith transaction "txn_" then 1%nat else 0%nat.
Proof.
  intros Paid A.
  destruct (pay_refused_or_charged payment_gateway)
    as [[refusal [R _]] | [a' [book [_ [A' [N _]]]]]].
  { rewrite R in Paid. discriminate Paid. }
  rewrite A in A'. injection A' as <-.
  destruct (late_fee_half_dollars h w patron_id book_id) as [a' [k [A' [K [Q _]]]]].
  fold assessed in A'. rewrite A in A'. injection A' as <-.
  assert (P : (0 < fee_amount a)%Q).
  { apply Qnot_le_lt. intros L. apply Qle_bool_iff in L. congruence. }
  assert (U : (fee_amount a <= 15.00)%Q) by (rewrite Q; q_arith).
  destruct (startswith transaction "txn_") eqn:S.
  - rewrite (run_refund h w' transaction (fee_amount a) refund_gateway S P U).
    destruct refund_gateway; reflexivity.
  - destruct (run_refund_refused h w' transaction (fee_amount a) refund_gateway)
      as [refusal E]; [left; exact S |].
    rewrite E. reflexivity.
Qed.

End PaymentShape.

(** X15.  [refund_late_fee_payment] touches neither the storage nor the
    clock: every call of its run goes to the payment service, none is a
    charge, and at most one is a refund.  It does not look up the
    transaction or the fee that was paid. *)
Theorem refund_only_talks_to_the_gateway {W : Type} (h : Handler W) (w : W)
    (transaction_id : string) (amount : Q) (payment_gateway : option Gateway) :
  let r := run h (refund_late_fee_payment transaction_id amount payment_gateway) w in
  filter is_gateway_call (calls r) = calls r /\
  filter is_write (calls r) = [] /\
  count_calls is_process_payment (calls r) = 0%nat /\
  (count_calls is_refund_payment (calls r) <= 1)%nat.
Proof.
  intros r. subst r.
  assert (Refused :
            startswith transaction_id "txn_" = false \/ Qle_bool amount 0 = true
            \/ Qle_bool amount 15.00 = false ->
            let r := run h (refund_late_fee_payment transaction_id amount
                                                    payment_gateway) w in
            filter is_gateway_call (calls r) = calls r /\
            filter is_write (calls r) = [] /\
            count_calls is_process_payment (calls r) = 0%nat /\
            (count_calls is_refund_payment (calls r) <= 1)%nat).
  { intros H.
    destruct (run_refund_refused h w transaction_id amount payment_gateway H)
      as [refusal E].
    cbv zeta. rewrite E. cbn. repeat split; lia. }
  destruct (startswith transaction_id "txn_") eqn:S; [| apply Refused; left; reflexivity].
  destruct (Qle_bool amount 0) eqn:N; [apply Refused; right; left; reflexivity |].
  destruct (Qle_bool amount 15.00) eqn:U; [| apply Refused; right; right; reflexivity].
  assert (P : (0 < amount)%Q).
  { apply Qnot_le_lt. intros L. apply Qle_bool_iff in L. congruence. }
  apply Qle_bool_iff in U.
  rewrite (run_refund h w transaction_id amount payment_gateway S P U).
  destruct payment_gateway; cbn; repeat split; lia.
Qed.


(** A payment for the book on its third overdue day, and the refund of
    it. *)
Lemma pay_result_shape_witness :
  let r := run Store.handler (pay_late_fees "123456" 4 None)
               (Store.library (Store.jan15 + timedelta_days 3)) in
  value r = Returns (true, "Payment successful! Payment processed successfully",
                     Some "txn_abc123") /\
  count_calls is_process_payment (calls r) = 1%nat.
Proof.
  intros r. split; [reflexivity |].
  destruct (pay_result_shape Store.handler
              (Store.library (Store.jan15 + timedelta_days 3)) "123456" 4 None)
    as [_ [Returned _]].
  destruct (Returned true "Payment successful! Payment processed successfully"
                     (Some "txn_abc123")) as [_ Once]; [reflexivity |].
  apply Once. reflexivity.
Defined.

Lemma pay_charges_the_fee_witness :
  (0 < 150 # 100)%Q /\ (150 # 100 <= 15.00)%Q.
Proof.
  destruct (pay_charges_the_fee Store.handler
              (Store.library (Store.jan15 + timedelta_days 3)) "123456" 4
              (Some 1%nat) (150 # 100)) as [_ [Positive [Capped _]]].
  - vm_compute. do 3 right. left. reflexivity.
  - split; [exact Positive | exact Capped].
Defined.

Lemma paid_fee_is_refundable_witness :
  count_calls is_refund_payment
    (calls (run Store.handler
                (refund_late_fee_payment "txn_abc123" (150 # 100) (Some 1%nat))
                (Store.library (Store.jan15 + timedelta_days 3))))
  = 1%nat.
Proof.
  apply (paid_fee_is_refundable Store.handler
           (Store.library (Store.jan15 + timedelta_days 3)) "123456" 4
           (Some 1%nat) (Some 1%nat)
           (Store.library (Store.jan15 + timedelta_days 3))
           "Payment successful! Payment processed successfully" "txn_abc123"
           {| fee_amount := 150 # 100; days_overdue := 3;
              status := "Late fee: $1.50 for 3 days overdue" |});
    reflexivity.
Defined.


(** *** The status report *)

Section StatusReport.

Context {W : Type} (h : Handler W).

Variable patron_id : string.

(** The loop over the borrowed books: it adds the positive fees to the
    total and their entries to the list, reading the borrowed books once
    more for each book, and neither writes nor contacts the payment
    service. *)
Lemma run_collect_fees (borrowed_books : list Borrowed.t) :
  forall (w : W) (total : Q) (overdue : list Overdue.t),
  exists total' new k,
    value (run h (collect_fees patron_id borrowed_books total overdue) w)
      = Returns (total', (overdue ++ new)%list) /\
    total' == total + sum_fees new /\
    sum_fees new == inject_Z k * 0.50 /\
    0 <= k <= 30 * Z.of_nat (List.length new) /\
    (List.length new <= List.length borrowed_books)%nat /\
    Forall (fun o => (0 < Overdue.fee o)%Q /\ (Overdue.fee o <= 15.00)%Q) new /\
    filter is_write
           (calls (run h (collect_fees patron_id borrowed_books total overdue) w)) = [] /\
    filter is_gateway_call
           (calls (run h (collect_fees patron_id borrowed_books total overdue) w)) = [] /\
    count_calls is_read_borrowed
      (calls (run h (collect_fees patron_id borrowed_books total overdue) w))
      = List.length borrowed_books.
Proof.
  induction borrowed_books as [| book rest IH]; intros w total overdue.
  - exists total, [], 0. cbn. rewrite app_nil_r.
    repeat split; try reflexivity; try lia; try q_arith. constructor.
  - cbn [collect_fees]. rewrite run_bind.
    destruct (late_fee_half_dollars h w patron_id (Borrowed.book_id book))
      as [a [k0 [A [K0 [E0 _]]]]].
    rewrite A. cbn [value world calls].
    set (w' := world (run h (calculate_late_fee_for_book patron_id
                                                         (Borrowed.book_id book)) w)).
    assert (C : forall l,
               filter is_write
                 (calls (run h (calculate_late_fee_for_book patron_id
                                                            (Borrowed.book_id book)) w)
                  ++ l) = filter is_write l /\
               filter is_gateway_call
                 (calls (run h (calculate_late_fee_for_book patron_id
                                                            (Borrowed.book_id book)) w)
                  ++ l) = filter is_gateway_call l /\
               count_calls is_read_borrowed
                 (calls (run h (calculate_late_fee_for_book patron_id
                                                            (Borrowed.book_id book)) w)
                  ++ l) = S (count_calls is_read_borrowed l)).
    { intros l. unfold count_calls. rewrite !filter_app.
      destruct (assessed_calls h w patron_id (Borrowed.book_id book)) as [Q | Q];
        rewrite Q; repeat split; reflexivity. }
    destruct (Qle_bool (fee_amount a) 0) eqn:N; cbn [negb].
    + destruct (IH w' total overdue)
        as [total' [new [k [V [T [S [K [L [F [Wr [G R]]]]]]]]]]].
      exists total', new, k. rewrite V.
      destruct (C (calls (run h (collect_fees patron_id rest total overdue) w')))
        as [C1 [C2 C3]].
      rewrite C1, C2, C3, Wr, G, R.
      repeat split; try assumption; try reflexivity; try lia. simpl. lia.
    + set (entry := Overdue.make (Borrowed.title book) (days_overdue a) (fee_amount a)).
      destruct (IH w' (total + fee_amount a)%Q (overdue ++ [entry])%list)
        as [total' [new [k [V [T [S [K [L [F [Wr [G R]]]]]]]]]]].
      exists total', (entry :: new), (k0 + k). rewrite V.
      destruct (C (calls (run h (collect_fees patron_id rest (total + fee_amount a)%Q
                                              (overdue ++ [entry])%list) w')))
        as [C1 [C2 C3]].
      rewrite C1, C2, C3, Wr, G, R.
      assert (P : (0 < fee_amount a)%Q).
      { apply Qnot_le_lt. intros Le. apply Qle_bool_iff in Le. congruence. }
      split; [rewrite <- app_assoc; reflexivity |].
      change (sum_fees (entry :: new)) with (fee_amount a + sum_fees new)%Q.
      split; [rewrite T; ring |].
      split.
      { rewrite S, E0. rewrite inject_Z_plus. ring. }
      split; [cbn [List.length]; lia |].
      split; [cbn [List.length]; lia |].
      split; [| repeat split; reflexivity].
      constructor; [| exact F]. cbn [Overdue.fee entry].
      split; [exact P | rewrite E0; q_arith].
Qed.

Variable w : W.

Let borrowed := answer h (get_patron_borrowed_books patron_id) w.

(** X17.  For a patron id that passes the guard the report counts the
    borrowed books the storage lists, and the remaining slots are five
    minus that count, negative beyond five.  There is one line of current
    borrows per book and at most one overdue line per book; each overdue
    line carries a fee above zero and of 15.00 at most; and the total is
    the sum of those fees, so it lies between zero and fifteen dollars a
    book. *)
Theorem status_report_totals :
  invalid_patron_id patron_id = false ->
  exists report,
    value (run h (get_patron_status_report patron_id) w) = Returns (Status report) /\
    Report.patron_id report = patron_id /\
    Report.total_books_borrowed report = Z.of_nat (List.length borrowed) /\
    Report.total_books_borrowed report + Report.borrowing_limit_remaining report = 5 /\
    List.length (Report.current_borrows report) = List.length borrowed /\
    (List.length (Report.overdue_books report) <= List.length borrowed)%nat /\
    Forall (fun o => (0 < Overdue.fee o)%Q /\ (Overdue.fee o <= 15.00)%Q)
           (Report.overdue_books report) /\
    Report.total_late_fees report == sum_fees (Report.overdue_books report) /\
    (0 <= Report.total_late_fees report)%Q /\
    (Report.total_late_fees report
     <= 15.00 * inject_Z (Report.total_books_borrowed report))%Q.
Proof.
  intros V. unfold get_patron_status_report, call. rewrite V. cbn [bind].
  rewrite run_vis. fold borrowed. rewrite run_bind.
  destruct (run_collect_fees borrowed (after h (get_patron_borrowed_books patron_id) w)
                             0.00 [])
    as [total' [new [k [R [T [S [K [L [F _]]]]]]]]].
  rewrite R. cbn [value run app].
  assert (Z0 : 0.00 == 0) by reflexivity. rewrite Z0 in T.
  assert (E : total' == inject_Z k * 0.50) by (rewrite T, S; apply Qplus_0_l).
  pose proof (round2_half_dollars total' k E) as Rd.
  eexists. split; [reflexivity |].
  cbn [Report.patron_id Report.total_books_borrowed Report.borrowing_limit_remaining
       Report.current_borrows Report.overdue_books Report.total_late_fees].
  split; [reflexivity |]. split; [reflexivity |]. split; [lia |].
  split; [apply length_map |]. split; [exact L |]. split; [exact F |].
  split; [rewrite Rd, T; apply Qplus_0_l |].
  split; [rewrite Rd, E; q_arith |].
  rewrite Rd, E.
  assert (B : k <= 30 * Z.of_nat (List.length borrowed)) by lia.
  revert B. generalize (Z.of_nat (List.length borrowed)). intros n B. q_arith.
Qed.

(** X18.  The status report only reads: its run holds no storage write
    and no contact with the payment service.  A patron id the guard rejects
    gives the error without any call; otherwise the borrowed books are read
    once for the report and once more for each book listed. *)
Theorem status_report_reads_only :
  let r := run h (get_patron_status_report patron_id) w in
  filter is_write (calls r) = [] /\
  filter is_gateway_call (calls r) = [] /\
  (invalid_patron_id patron_id = true ->
   value r = Returns (StatusError "Invalid patron ID") /\ calls r = []) /\
  (invalid_patron_id patron_id = false ->
   count_calls is_read_borrowed (calls r) = S (List.length borrowed)).
Proof.
  intros r. subst r. unfold get_patron_status_report, call.
  destruct (invalid_patron_id patron_id) eqn:V.
  { cbn. repeat split; try reflexivity. intros D. discriminate D. }
  cbn [bind]. rewrite run_vis. fold borrowed. rewrite run_bind.
  destruct (run_collect_fees borrowed (after h (get_patron_borrowed_books patron_id) w)
                             0.00 [])
    as [total' [new [k [R [_ [_ [_ [_ [_ [Wr [G Rd]]]]]]]]]]].
  rewrite R. cbn [value run calls]. rewrite app_nil_r.
  unfold count_calls in *. cbn [filter is_write is_gateway_call is_read_borrowed].
  rewrite Wr, G. split; [reflexivity |]. split; [reflexivity |].
  split; [intros D; discriminate D |]. intros _. cbn [List.length]. rewrite Rd.
  reflexivity.
Qed.

End StatusReport.

(** Patron 123456 holds book 4, ten days overdue, and four further books
    that are not due yet. *)
Lemma status_report_totals_witness :
  let w := Store.with_loans 4 (Store.library (Store.jan15 + timedelta_days 10)) in
  exists report,
    value (run Store.handler (get_patron_status_report "123456") w)
      = Returns (Status report) /\
    Report.total_books_borrowed report = 5 /\
    Report.borrowing_limit_remaining report = 0 /\
    Report.total_late_fees report == 6.50.
Proof.
  intros w.
  destruct (status_report_totals Store.handler "123456" w)
    as [report [V [_ [T [Rm [_ [_ [_ [S _]]]]]]]]]; [reflexivity |].
  exists report. split; [exact V |].
  assert (B : Report.total_books_borrowed report = 5) by (rewrite T; reflexivity).
  split; [exact B |]. split; [lia |].
  vm_compute in V. injection V as <-. reflexivity.
Defined.

Lemma status_report_reads_only_witness :
  let w := Store.with_loans 4 (Store.library (Store.jan15 + timedelta_days 10)) in
  count_calls is_read_borrowed
    (calls (run Store.handler (get_patron_status_report "123456") w)) = 6%nat.
Proof.
  intros w.
  destruct (status_report_reads_only Store.handler "123456" w) as [_ [_ [_ Reads]]].
  rewrite Reads; reflexivity.
Defined.
